(** * Booking back end of mea-barber: storage-level consistency core

    A shallow embedding of the Supabase edge functions of the repository
    (verify-code, send-sms, create-booking, admin-create-booking, sms-webhook),
    of the shared security helpers (_shared/security.ts) and of the SQL
    migration that installs the partial unique index and the rate-limit
    functions.

    Strings are Stdlib [string]s holding UTF-8 bytes; JavaScript string
    operations that count or classify code units ([.length], [.trim()]) are
    written over that encoding.  Timestamps are [Z] milliseconds; calendar
    days are [Z] day numbers.  [new Date(s)] is read as V8 reads it: the ES5
    date-time format is modelled in full, and the strings V8 hands to its
    legacy parser are answered by [date_fallback], a parameter of the
    handlers' section. *)

From Stdlib Require Import String Ascii List ZArith Bool Lia.
Import ListNotations.
Open Scope string_scope.
Open Scope Z_scope.

(* ================================================================= *)
(** ** String helpers (JavaScript string primitives) *)

(** [/\d/] without the [u] flag: ASCII digits only. *)
Definition is_digit (c : ascii) : bool :=
  let n := nat_of_ascii c in ((48 <=? n) && (n <=? 57))%nat.

Definition is_plus (c : ascii) : bool := Ascii.eqb c "+"%char.

(** [s.replace(re, "")] for a one-character class: keep the characters [keep]
    accepts. *)
Fixpoint str_filter (keep : ascii -> bool) (s : string) : string :=
  match s with
  | EmptyString => EmptyString
  | String c r => if keep c then String c (str_filter keep r) else str_filter keep r
  end.

(** [s.slice(n)] for [n >= 0]. *)
Fixpoint str_drop (n : nat) (s : string) : string :=
  match n, s with
  | O, _ => s
  | S _, EmptyString => EmptyString
  | S k, String _ r => str_drop k r
  end.

(** [s.startsWith(p)]. *)
Fixpoint starts_with (p s : string) : bool :=
  match p, s with
  | EmptyString, _ => true
  | String _ _, EmptyString => false
  | String a p', String b s' => Ascii.eqb a b && starts_with p' s'
  end.

Fixpoint all_chars (f : ascii -> bool) (s : string) : bool :=
  match s with
  | EmptyString => true
  | String c r => f c && all_chars f r
  end.

(** [/^\d{n}$/.test(s)]. *)
Definition digits_exactly (n : nat) (s : string) : bool :=
  Nat.eqb (String.length s) n && all_chars is_digit s.

(* ================================================================= *)
(** ** Phone normalization (_shared/security.ts) *)

(** The characters [/[^\d+]/g] does not remove. *)
Definition phone_char (c : ascii) : bool := is_digit c || is_plus c.

(** [normalizePhone]; [None] is the thrown ["Invalid phone number format"]. *)
Definition normalizePhone (phone : string) : option string :=
  let cleaned := str_filter phone_char phone in
  if starts_with "+972" cleaned then Some cleaned
  else if starts_with "972" cleaned then Some ("+" ++ cleaned)
  else if starts_with "0" cleaned then Some ("+972" ++ str_drop 1 cleaned)
  else if digits_exactly 9 cleaned then Some ("+972" ++ cleaned)
  else None.

(** [toLocalPhone] of the shared helpers: ["0" + normalizePhone(phone).slice(4)]. *)
Definition toLocalPhone (phone : string) : option string :=
  match normalizePhone phone with
  | Some n => Some ("0" ++ str_drop 4 n)
  | None => None
  end.

(** The send-sms phone check [/^05\d{8}$/]: a local Israeli mobile number. *)
Definition is_local_mobile (phone : string) : bool :=
  starts_with "05" phone && digits_exactly 10 phone.

(* ================================================================= *)
(** ** Persisted state (tables of the Supabase project) *)

(** A row of [verification_codes]. *)
Record vrow := mkVrow {
  v_phone : string;
  v_code : string;
  v_expires_at : Z;
  v_verified : bool
}.

(** A row of [bookings]; [b_id] is the generated primary key. *)
Record booking := mkBooking {
  b_id : Z;
  b_customer_name : string;
  b_customer_phone : string;
  b_booking_date : string;
  b_booking_time : string;
  b_status : string
}.

(** A row of [closed_slots]; [None] time closes the whole day. *)
Record closed_slot := mkClosed {
  c_closed_date : string;
  c_closed_time : option string
}.

(** A row of [rate_limits]. *)
Record rl_row := mkRl {
  rl_identifier : string;
  rl_action_type : string;
  rl_created_at : Z
}.

Record world := mkWorld {
  w_codes : list vrow;
  w_bookings : list booking;
  w_closed : list closed_slot;
  w_rate : list rl_row;
  w_next_id : Z
}.

Definition set_codes (cs : list vrow) (w : world) : world :=
  mkWorld cs (w_bookings w) (w_closed w) (w_rate w) (w_next_id w).
Definition set_bookings (bs : list booking) (w : world) : world :=
  mkWorld (w_codes w) bs (w_closed w) (w_rate w) (w_next_id w).
Definition set_rate (rs : list rl_row) (w : world) : world :=
  mkWorld (w_codes w) (w_bookings w) (w_closed w) rs (w_next_id w).

(** [status != 'cancelled'], the predicate of the partial index. *)
Definition active (b : booking) : bool := negb (String.eqb (b_status b) "cancelled").

Definition same_slot (date time : string) (b : booking) : bool :=
  String.eqb (b_booking_date b) date && String.eqb (b_booking_time b) time.

(* ================================================================= *)
(** ** Storage statements and external calls

    Each constructor is one PostgREST / RPC statement of the source (or one
    outbound HTTP call); the database executes each statement atomically. *)

Inductive op :=
  (** send-sms: [.from("verification_codes").delete().eq("phone", phone)] *)
  | DeleteCodes (phone : string)
  (** send-sms: [.from("verification_codes").insert({...})] *)
  | InsertCode (row : vrow)
  (** [.update({verified: true}).eq("phone").eq("code").eq("verified", false)
       .gt("expires_at", now).select().maybeSingle()] *)
  | ConsumeCode (phone code : string) (now : Z)
  (** [rpc("check_rate_limit", ...)] *)
  | RpcCheckRateLimit (ident action : string) (max_attempts window_minutes : Z) (now : Z)
  (** [rpc("record_rate_limit", ...)] *)
  | RpcRecordRateLimit (ident action : string) (now : Z)
  (** [.from("bookings").select("id").eq(date).eq(time).neq("status","cancelled").maybeSingle()] *)
  | SelectActiveBooking (date time : string)
  (** [.from("closed_slots").select("id").eq("closed_date", date)
       .or(closed_time.eq.time, closed_time.is.null).maybeSingle()] *)
  | SelectClosedSlot (date time : string)
  (** [.from("bookings").insert([{...}]).select().single()] *)
  | InsertBooking (name phone date time status : string)
  (** sms-webhook: non-cancelled bookings of a phone, ordered by date, time *)
  | SelectPhoneBookings (phone : string)
  (** sms-webhook: [.update({status: "cancelled"}).eq("id", id)] *)
  | CancelBooking (id : Z)
  (** [supabase.auth.getUser(token)] *)
  | GetUser (token : string)
  (** [rpc("has_role", {_user_id, _role})] *)
  | HasRole (uid role : string)
  (** Twilio [Messages.json] POST *)
  | TwilioSend (to_ body : string)
  (** [supabase.functions.invoke("send-sms", ...)] *)
  | InvokeSendSms (phone date time name : string).

(** What a statement hands back: [{data, error}] with [error] as [AErr]. *)
Inductive answer :=
  | AUnit
  | ARow (r : option vrow)
  | ABool (b : bool)
  | AId (id : option Z)
  | ABooking (b : booking)
  | ABookings (bs : list booking)
  | AUser (uid : option string)
  | AHttp (ok : bool) (sid : string) (message : option string)
  | AErr (code message : string).

(** [.maybeSingle()] on a result set. *)
Definition maybe_single {X} (f : X -> answer) (none : answer) (xs : list X) : answer :=
  match xs with
  | [] => none
  | [x] => f x
  | _ => AErr "PGRST116" "JSON object requested, multiple (or no) rows returned"
  end.

Definition code_matches (phone code : string) (now : Z) (r : vrow) : bool :=
  String.eqb (v_phone r) phone && String.eqb (v_code r) code && negb (v_verified r) && (now <? v_expires_at r).

Definition mark_verified (r : vrow) : vrow :=
  mkVrow (v_phone r) (v_code r) (v_expires_at r) true.

(** The [check_rate_limit] SQL function: attempts strictly newer than
    [NOW() - window] compared with the maximum. *)
Definition rl_in_window (ident action : string) (window_minutes now : Z) (r : rl_row) : bool :=
  String.eqb (rl_identifier r) ident && String.eqb (rl_action_type r) action &&
  (now - window_minutes * 60000 <? rl_created_at r).

Definition check_rate_limit (rs : list rl_row) (ident action : string)
    (max_attempts window_minutes now : Z) : bool :=
  Z.of_nat (length (filter (rl_in_window ident action window_minutes now) rs)) <? max_attempts.

(** The time is spliced unescaped into the filter text
    [closed_time.eq.${booking_time},closed_time.is.null] of [.or()].  A
    time made of digits and [:] only is read back as that literal value;
    for any other text (a [,] or [)] ends the value and starts another
    filter, a leading quote or brace changes the value's syntax, PostgREST
    may refuse the filter) the answer is left to [ext]. *)
Definition or_value_plain (time : string) : bool :=
  all_chars (fun c => is_digit c || Ascii.eqb c ":") time.

Definition closed_matches (date time : string) (c : closed_slot) : bool :=
  String.eqb (c_closed_date c) date &&
  match c_closed_time c with None => true | Some t => String.eqb t time end.

(** [ORDER BY booking_date, booking_time]: ISO dates and [HH:MM:SS] times
    order as their strings do. *)
Definition slot_leb (x y : booking) : bool :=
  match String.compare (b_booking_date x) (b_booking_date y) with
  | Lt => true
  | Gt => false
  | Eq => match String.compare (b_booking_time x) (b_booking_time y) with
          | Gt => false
          | _ => true
          end
  end.

Fixpoint insert_sorted (b : booking) (l : list booking) : list booking :=
  match l with
  | [] => [b]
  | y :: r => if slot_leb y b then y :: insert_sorted b r else b :: y :: r
  end.

Fixpoint sort_slots (l : list booking) : list booking :=
  match l with
  | [] => []
  | b :: r => insert_sorted b (sort_slots r)
  end.

Definition cancel_row (id : Z) (b : booking) : booking :=
  if b_id b =? id then
    mkBooking (b_id b) (b_customer_name b) (b_customer_phone b)
              (b_booking_date b) (b_booking_time b) "cancelled"
  else b.

(** The partial unique index [idx_unique_active_booking_slot]: an active
    row may not join an active row of the same slot (error 23505). *)
Definition slot_conflict (bs : list booking) (row : booking) : bool :=
  active row &&
  existsb (fun b => active b && same_slot (b_booking_date row) (b_booking_time row) b) bs.

(** One statement against the database; calls outside the database
    (auth, roles, HTTP), and a closed-slot lookup whose time is not plain
    ([or_value_plain]), are answered by [ext]. *)
Definition exec_op (ext : op -> answer) (o : op) (w : world) : answer * world :=
  match o with
  | DeleteCodes phone =>
      (AUnit, set_codes (filter (fun r => negb (String.eqb (v_phone r) phone)) (w_codes w)) w)
  | InsertCode row => (AUnit, set_codes (w_codes w ++ [row]) w)
  | ConsumeCode phone code now =>
      match filter (code_matches phone code now) (w_codes w) with
      | [] => (ARow None, w)
      | [r] => (ARow (Some (mark_verified r)),
                set_codes (map (fun x => if code_matches phone code now x
                                         then mark_verified x else x) (w_codes w)) w)
      | _ => (AErr "PGRST116" "JSON object requested, multiple (or no) rows returned", w)
      end
  | RpcCheckRateLimit ident action mx win now =>
      (ABool (check_rate_limit (w_rate w) ident action mx win now), w)
  | RpcRecordRateLimit ident action now =>
      (AUnit, set_rate (w_rate w ++ [mkRl ident action now]) w)
  | SelectActiveBooking date time =>
      (maybe_single (fun b => AId (Some (b_id b))) (AId None)
         (filter (fun b => active b && same_slot date time b) (w_bookings w)), w)
  | SelectClosedSlot date time =>
      if or_value_plain time then
        (maybe_single (fun _ => AId (Some 0)) (AId None)
           (filter (closed_matches date time) (w_closed w)), w)
      else (ext o, w)
  | InsertBooking name phone date time status =>
      let row := mkBooking (w_next_id w) name phone date time status in
      if slot_conflict (w_bookings w) row then
        (AErr "23505" "duplicate key value violates unique constraint idx_unique_active_booking_slot", w)
      else
        (ABooking row, mkWorld (w_codes w) (w_bookings w ++ [row]) (w_closed w)
                              (w_rate w) (w_next_id w + 1))
  | SelectPhoneBookings phone =>
      (ABookings (sort_slots (filter (fun b => String.eqb (b_customer_phone b) phone && active b)
                                     (w_bookings w))), w)
  | CancelBooking id => (AUnit, set_bookings (map (cancel_row id) (w_bookings w)) w)
  | GetUser _ | HasRole _ _ | TwilioSend _ _ | InvokeSendSms _ _ _ _ => (ext o, w)
  end.

(* ================================================================= *)
(** ** Handlers as programs over the storage statements

    A handler is a tree of statements: [Call o k] issues [o] and continues
    with the answer; [Throw] is a JavaScript [throw]; [Log] is a console line. *)

Inductive prog (A : Type) : Type :=
  | Ret (a : A)
  | Throw (msg : string)
  | Call (o : op) (k : answer -> prog A)
  | Log (line : string) (next : prog A).

Arguments Ret {A} a.
Arguments Throw {A} msg.
Arguments Call {A} o k.
Arguments Log {A} line next.

Fixpoint bind {A B} (p : prog A) (f : A -> prog B) : prog B :=
  match p with
  | Ret a => f a
  | Throw m => Throw m
  | Call o k => Call o (fun x => bind (k x) f)
  | Log l n => Log l (bind n f)
  end.

Notation "x <- p ;; q" := (bind p (fun x => q))
  (at level 61, p at next level, right associativity).

(** [try { p } catch (error) { return h(error.message) }] *)
Fixpoint catch {A} (h : string -> A) (p : prog A) : prog A :=
  match p with
  | Ret a => Ret a
  | Throw m => Ret (h m)
  | Call o k => Call o (fun x => catch h (k x))
  | Log l n => Log l (catch h n)
  end.

Inductive outcome (A : Type) := Done (a : A) | Thrown (msg : string).
Arguments Done {A} a.
Arguments Thrown {A} msg.

(** Sequential execution against the database; returns the outcome, the
    final state and the console lines. *)
Fixpoint run {A} (ext : op -> answer) (p : prog A) (w : world)
    : outcome A * world * list string :=
  match p with
  | Ret a => (Done a, w, [])
  | Throw m => (Thrown m, w, [])
  | Call o k => let (a, w') := exec_op ext o w in run ext (k a) w'
  | Log l n => let '(r, w', ls) := run ext n w in (r, w', l :: ls)
  end.

(** A property of every path of a program, whatever each statement answers
    (database errors included). *)
Fixpoint all_paths {A} (P : A -> Prop) (Q : string -> Prop) (p : prog A) : Prop :=
  match p with
  | Ret a => P a
  | Throw m => Q m
  | Call _ k => forall x, all_paths P Q (k x)
  | Log _ n => all_paths P Q n
  end.

(* ================================================================= *)
(** ** Rate limiting (_shared/security.ts, check_rate_limit / record_rate_limit) *)

(** [RATE_LIMITS]: action type |-> (maxAttempts, windowMinutes). *)
Definition RATE_LIMITS : list (string * (Z * Z)) :=
  [("sms_send", (3, 60)); ("verify_attempt", (10, 15)); ("verify_fail", (5, 15))].

Fixpoint lookup_config (action : string) (t : list (string * (Z * Z))) : option (Z * Z) :=
  match t with
  | [] => None
  | (k, v) :: r => if String.eqb k action then Some v else lookup_config action r
  end.

(** [checkRateLimit]: [true] when the action is allowed. *)
Definition checkRateLimit (ident action : string) (now : Z) : prog bool :=
  match lookup_config action RATE_LIMITS with
  | None => Log ("Unknown rate limit action: " ++ action) (Ret true)
  | Some (mx, win) =>
      Call (RpcCheckRateLimit ident action mx win now) (fun a =>
        match a with
        | AErr _ m => Log ("Rate limit check error: " ++ m) (Ret true)
        | ABool b => Ret b
        | _ => Ret false
        end)
  end.

(** [recordRateLimit]. *)
Definition recordRateLimit (ident action : string) (now : Z) : prog unit :=
  Call (RpcRecordRateLimit ident action now) (fun a =>
    match a with
    | AErr _ m => Log ("Rate limit record error: " ++ m) (Ret tt)
    | _ => Ret tt
    end).

(* ================================================================= *)
(** ** Error sanitization (_shared/security.ts) *)

Fixpoint contains (needle hay : string) : bool :=
  starts_with needle hay ||
  match hay with
  | EmptyString => false
  | String _ r => contains needle r
  end.

Definition SAFE_ERROR_MESSAGES : list (string * string) :=
  [("Missing required fields", "חסרים שדות חובה");
   ("Invalid phone number format", "מספר טלפון לא תקין");
   ("Invalid code format", "קוד לא תקין");
   ("Rate limit exceeded", "יותר מדי ניסיונות, נסה שוב מאוחר יותר");
   ("Slot already booked", "השעה הזו כבר תפוסה");
   ("Slot not available", "השעה הזו לא זמינה")].

Definition GENERIC_ERROR : string := "אירעה שגיאה, נסה שוב".

Fixpoint sanitize_in (message : string) (t : list (string * string)) : string :=
  match t with
  | [] => GENERIC_ERROR
  | (key, safe) :: r => if contains key message then safe else sanitize_in message r
  end.

(** [sanitizeError] ([error.message] already extracted). *)
Definition sanitizeError (message : string) : string :=
  sanitize_in message SAFE_ERROR_MESSAGES.

(* ================================================================= *)
(** ** Dates: [new Date(s)] as V8 reads it

    V8 first reads [s] in the ES5 date-time format ([ParseES5DateTime] in
    src/date/dateparser-inl.h); on a token that format does not allow there,
    it hands the string to its legacy parser.  The legacy parser is the
    section variable [date_fallback] below: every result of the file holds
    whatever it answers.  The server runs in UTC, so a local date-time is a
    UTC date-time.  A time value is [Z] milliseconds since
    1970-01-01T00:00:00Z; a calendar day is its day number (days since
    1970-01-01). *)

Definition digit_val (c : ascii) : Z := Z.of_nat (nat_of_ascii c) - 48.

Fixpoint digits_val (s : string) (acc : Z) : Z :=
  match s with
  | EmptyString => acc
  | String c r => digits_val r (acc * 10 + digit_val c)
  end.

Definition leap (y : Z) : bool :=
  ((y mod 4 =? 0) && negb (y mod 100 =? 0)) || (y mod 400 =? 0).

(** Length of a month of the proleptic Gregorian calendar. *)
Definition days_in_month (y m : Z) : Z :=
  if (m =? 2) then (if leap y then 29 else 28)
  else if (m =? 4) || (m =? 6) || (m =? 9) || (m =? 11) then 30 else 31.

(** Day number of a proleptic Gregorian date; a day past the end of the
    month counts on into the next months, as V8's [MakeDay] does. *)
Definition days_from_civil (y m d : Z) : Z :=
  let y' := if m <=? 2 then y - 1 else y in
  let era := y' / 400 in
  let yoe := y' - era * 400 in
  let mp := if 2 <? m then m - 3 else m + 9 in
  let doy := (153 * mp + 2) / 5 + d - 1 in
  let doe := yoe * 365 + yoe / 4 - yoe / 100 + doy in
  era * 146097 + doe - 719468.

(** *** JavaScript white space on UTF-8 text *)

(** Byte length of the [WhiteSpace] code point [s] starts with, [0] if none:
    TAB, VT, FF, SP, U+00A0, U+FEFF and the other [Zs] code points U+1680,
    U+2000..U+200A, U+202F, U+205F, U+3000. *)
Definition white_space_len (s : string) : nat :=
  match s with
  | EmptyString => 0
  | String a r =>
    let n := nat_of_ascii a in
    if (n =? 9) || (n =? 11) || (n =? 12) || (n =? 32) then 1 else
    match r with
    | EmptyString => 0
    | String b r2 =>
      let m := nat_of_ascii b in
      if (n =? 194) && (m =? 160) then 2 else
      match r2 with
      | EmptyString => 0
      | String c _ =>
        let k := nat_of_ascii c in
        if (n =? 239) && (m =? 187) && (k =? 191) then 3
        else if (n =? 225) && (m =? 154) && (k =? 128) then 3
        else if (n =? 226) && (m =? 128) && ((128 <=? k) && (k <=? 138) || (k =? 175)) then 3
        else if (n =? 226) && (m =? 129) && (k =? 159) then 3
        else if (n =? 227) && (m =? 128) && (k =? 128) then 3
        else 0
      end
    end
  end%nat.

(** Byte length of the [LineTerminator] code point [s] starts with, [0] if
    none: LF, CR, U+2028, U+2029. *)
Definition line_terminator_len (s : string) : nat :=
  match s with
  | String a r =>
    let n := nat_of_ascii a in
    if (n =? 10) || (n =? 13) then 1 else
    match r with
    | String b (String c _) =>
        if (n =? 226) && (nat_of_ascii b =? 128) &&
           ((nat_of_ascii c =? 168) || (nat_of_ascii c =? 169)) then 3 else 0
    | _ => 0
    end
  | EmptyString => 0
  end%nat.

(** Byte length of the white space or line terminator [s] starts with. *)
Definition trim_len (s : string) : nat :=
  match white_space_len s with
  | O => line_terminator_len s
  | k => k
  end.

(** *** The ES5 date-time reader *)

(** The number token at the start of [s]: the maximal run of ASCII digits,
    and the rest. *)
Fixpoint digit_run (s : string) : string * string :=
  match s with
  | String c r =>
      if is_digit c then let (d, rest) := digit_run r in (String c d, rest)
      else (EmptyString, s)
  | EmptyString => (EmptyString, EmptyString)
  end.

Fixpoint skip_zeros (s : string) : string :=
  match s with
  | String c r => if Ascii.eqb c "0" then skip_zeros r else s
  | EmptyString => EmptyString
  end.

(** [ReadUnsignedNumeral]: leading zeros skipped, at most nine significant
    digits read. *)
Definition numeral_value (d : string) : Z := digits_val (substring 0 9 (skip_zeros d)) 0.

(** [IsFixedLengthNumber(n)]: a number token of exactly [n] characters, its
    value and the rest. *)
Definition fixed_number (n : nat) (s : string) : option (Z * string) :=
  let (d, rest) := digit_run s in
  if Nat.eqb (String.length d) n && negb (Nat.eqb n 0) then Some (numeral_value d, rest) else None.

(** [ReadMilliseconds] of a number token of value [v] and [len] characters. *)
Definition read_milliseconds (v : Z) (len : nat) : Z :=
  if Nat.eqb len 1 then v * 100
  else if Nat.eqb len 2 then v * 10
  else if Nat.leb len 3 then v
  else v / 10 ^ (Z.of_nat (Nat.min len 9) - 3).

(** [SkipSymbol(c)]. *)
Definition skip_symbol (c : ascii) (s : string) : option string :=
  match s with
  | String d r => if Ascii.eqb c d then Some r else None
  | EmptyString => None
  end.

(** A sign token: [+] or [-]. *)
Definition ascii_sign (s : string) : option (Z * string) :=
  match s with
  | String c r =>
      if Ascii.eqb c "+" then Some (1, r)
      else if Ascii.eqb c "-" then Some (-1, r) else None
  | EmptyString => None
  end.

(** A word of the scanner goes on at [s]: a code unit from ['A'] up that is
    not white space. *)
Definition word_continues (s : string) : bool :=
  match s with
  | String c _ => (65 <=? nat_of_ascii c)%nat && Nat.eqb (white_space_len s) 0
  | EmptyString => false
  end.

(** The keyword [T] (either case) as a whole word: the time separator. *)
Definition time_separator (s : string) : option string :=
  match s with
  | String c r =>
      if (Ascii.eqb c "T" || Ascii.eqb c "t") && negb (word_continues r) then Some r else None
  | EmptyString => None
  end.

(** The optional zone designator, then the end of the input: [Z], or an
    offset [+hh:mm] / [+hhmm] (seconds east of UTC), or nothing (the local
    zone, UTC).  [None] is [DateToken::Invalid()]. *)
Definition es5_zone (s : string) : option Z :=
  match s with
  | EmptyString => Some 0
  | String c EmptyString => if Ascii.eqb c "Z" || Ascii.eqb c "z" then Some 0 else None
  | _ =>
    match ascii_sign s with
    | None => None
    | Some (sg, r) =>
      match fixed_number 4 r with
      | Some (hm, EmptyString) =>
          if (hm / 100 <=? 23) && (hm mod 100 <=? 59)
          then Some (sg * ((hm / 100) * 3600 + (hm mod 100) * 60)) else None
      | Some _ => None
      | None =>
        match fixed_number 2 r with
        | None => None
        | Some (hh, r1) =>
          if negb (hh <=? 23) then None else
          match skip_symbol ":" r1 with
          | None => None
          | Some r2 =>
            match fixed_number 2 r2 with
            | Some (mm, EmptyString) =>
                if mm <=? 59 then Some (sg * (hh * 3600 + mm * 60)) else None
            | _ => None
            end
          end
        end
      end
    end
  end.

(** The time part after [T]: [HH:mm[:ss[.sss]]] and the zone, as
    milliseconds from midnight UTC of the day; hour 24 only as [24:00],
    [24:00:00] or [24:00:00.0...].  [None] is [DateToken::Invalid()]. *)
Definition es5_time (s : string) : option Z :=
  match fixed_number 2 s with
  | None => None
  | Some (h, r1) =>
    if negb (h <=? 24) then None else
    match skip_symbol ":" r1 with
    | None => None
    | Some r2 =>
      match fixed_number 2 r2 with
      | None => None
      | Some (mi, r3) =>
        if negb (mi <=? 59) || ((h =? 24) && (0 <? mi)) then None else
        let secs : option (Z * Z * string) :=
          match skip_symbol ":" r3 with
          | None => Some (0, 0, r3)
          | Some r4 =>
            match fixed_number 2 r4 with
            | None => None
            | Some (sec, r5) =>
              if negb (sec <=? 59) || ((h =? 24) && (0 <? sec)) then None else
              match skip_symbol "." r5 with
              | None => Some (sec, 0, r5)
              | Some r6 =>
                let (d, r7) := digit_run r6 in
                if Nat.eqb (String.length d) 0 then None else
                let v := numeral_value d in
                if (h =? 24) && (0 <? v) then None
                else Some (sec, read_milliseconds v (String.length d), r7)
              end
            end
          end in
        match secs with
        | None => None
        | Some (sec, ms, r8) =>
          match es5_zone r8 with
          | None => None
          | Some off => Some (h * 3600000 + mi * 60000 + sec * 1000 + ms - off * 1000)
          end
        end
      end
    end
  end.

(** What [ParseES5DateTime] makes of a string. *)
Inductive es5_result :=
  | ES5Time (t : Z)   (* read to its end: the time value before [TimeClip] *)
  | ES5Invalid        (* [DateToken::Invalid()]: an Invalid Date *)
  | ES5Legacy.        (* a token the format does not allow: the legacy parser goes on *)

(** [ParseES5DateTime] followed by [MakeDay]/[MakeTime]: a year of four
    digits (or a sign and six digits), optional [-MM] (01..12) and [-DD]
    (01..31, whatever the month: [MakeDay] counts on into the next month),
    missing month and day being 1, then the end of the input or [T] and the
    time part. *)
Definition es5_date_time (s : string) : es5_result :=
  let year : option (Z * string) :=
    match ascii_sign s with
    | Some (sg, r) =>
        match fixed_number 6 r with
        | Some (y, r') => if (sg =? -1) && (y =? 0) then None else Some (sg * y, r')
        | None => None
        end
    | None => fixed_number 4 s
    end in
  match year with
  | None => ES5Legacy
  | Some (y, r1) =>
    let md : option (Z * Z * string) :=
      match skip_symbol "-" r1 with
      | None => Some (1, 1, r1)
      | Some r2 =>
        match fixed_number 2 r2 with
        | None => None
        | Some (m, r3) =>
          if negb ((1 <=? m) && (m <=? 12)) then None else
          match skip_symbol "-" r3 with
          | None => Some (m, 1, r3)
          | Some r4 =>
            match fixed_number 2 r4 with
            | Some (d, r5) => if (1 <=? d) && (d <=? 31) then Some (m, d, r5) else None
            | None => None
            end
          end
        end
      end in
    match md with
    | None => ES5Legacy
    | Some (m, d, r) =>
      let day := days_from_civil y m 1 + d - 1 in
      match r with
      | EmptyString => ES5Time (day * 86400000)
      | _ =>
        match time_separator r with
        | None => ES5Legacy
        | Some rt =>
          match es5_time rt with
          | Some t => ES5Time (day * 86400000 + t)
          | None => ES5Invalid
          end
        end
      end
    end
  end.

(** A legacy parser that reads nothing: every string outside the ES5 format
    is an Invalid Date.  (Used only to run examples.) *)
Definition legacy_nan : string -> option Z := fun _ => None.

Section Handlers.

(** [new Date(s).getTime()] for a string V8 hands to its legacy parser
    ([None] is [NaN]). *)
Variable date_fallback : string -> option Z.

(** [new Date(s).getTime()]; [None] is [NaN] (an Invalid Date).  [TimeClip]
    turns a time value beyond 8.64e15 ms into [NaN]. *)
Definition js_date_ms (s : string) : option Z :=
  match es5_date_time s with
  | ES5Time t => if Z.abs t <=? 8640000000000000 then Some t else None
  | ES5Invalid => None
  | ES5Legacy => date_fallback s
  end.

(** The calendar day of [new Date(dateStr + "T00:00:00")] ([getDay],
    [getDate], [getMonth] in UTC). *)
Definition booking_day (dateStr : string) : option Z :=
  match js_date_ms (dateStr ++ "T00:00:00") with
  | Some ms => Some (ms / 86400000)
  | None => None
  end.

(** [isValidBookingDate]; [today] is the day number of [new Date()], so
    [setHours(0,0,0,0)] makes it midnight of day [today] and
    [setDate(getDate() + 60)] midnight of day [today + 60].  An Invalid Date
    compares false with both. *)
Definition isValidBookingDate (today : Z) (dateStr : string) : bool :=
  let todayMs := today * 86400000 in
  let maxDate := (today + 60) * 86400000 in
  match js_date_ms (dateStr ++ "T00:00:00") with
  | Some date => (todayMs <=? date) && (date <=? maxDate)
  | None => false
  end.

(* ================================================================= *)
(** ** HTTP bodies, requests and user-facing messages *)

(** JSON (or TwiML) bodies of the responses. *)
Inductive body :=
  | JSuccess                              (* {success: true} *)
  | JSuccessBooking (b : booking)         (* {success: true, booking} *)
  | JFailure (error : string)             (* {success: false, error} *)
  | JSmsSent (sid type_ : string)         (* {success: true, messageId, type} *)
  | JError (error : string)               (* {error} *)
  | Twiml (text : string).                (* <Response><Message>text</Message></Response> *)

Record response := mkResp { r_status : Z; r_body : body }.

(** [await req.json()]: a body, or the exception the parser throws. *)
Inductive json (X : Type) := JsonOk (x : X) | JsonError (msg : string).
#[global] Arguments JsonOk {X} x.
#[global] Arguments JsonError {X} msg.

Definition from_json {X} (j : json X) : prog X :=
  match j with JsonOk x => Ret x | JsonError m => Throw m end.

Record verify_req := mkVerifyReq { vr_phone : string; vr_code : string }.

Record booking_req := mkBookingReq {
  br_phone : string; br_code : string; br_customer_name : string;
  br_booking_date : string; br_booking_time : string }.

Record admin_req := mkAdminReq {
  ar_customer_name : string; ar_customer_phone : string;
  ar_booking_date : string; ar_booking_time : string }.

Record sms_req := mkSmsReq {
  sr_phone : string; sr_type : string; sr_code : string;
  sr_date : string; sr_time : string; sr_name : string }.

(** The line feed ["\n"]. *)
Definition NL : string := String (ascii_of_nat 10) EmptyString.

(** JavaScript falsiness of a string field: missing or empty. *)
Definition falsy (s : string) : bool := String.eqb s "".

Definition MSG_RATE_LIMITED := "יותר מדי ניסיונות, נסה שוב בעוד 15 דקות".
Definition MSG_LOCKED := "החשבון נעול, נסה שוב בעוד 15 דקות".
Definition MSG_INVALID_CODE := "קוד שגוי או פג תוקף".
Definition MSG_CODE_FORMAT := "קוד לא תקין".
Definition MSG_INVALID_DATE := "תאריך לא תקין".
Definition MSG_SLOT_TAKEN := "השעה הזו כבר תפוסה".
Definition MSG_SLOT_CLOSED := "השעה הזו לא זמינה".
Definition MSG_SLOT_CLOSED_ADMIN := "השעה הזו סגורה".

(** [String.prototype.trim] on UTF-8 text: white space and line
    terminators are removed at both ends.  The fuel is the length of the
    string; every step removes at least one byte. *)
Fixpoint trim_start_fuel (fuel : nat) (s : string) : string :=
  match fuel with
  | O => s
  | S f =>
    match trim_len s with
    | O => s
    | k => trim_start_fuel f (str_drop k s)
    end
  end.

Fixpoint trim_end_fuel (fuel : nat) (s : string) : string :=
  match fuel with
  | O => s
  | S f =>
    match s with
    | EmptyString => EmptyString
    | String c r =>
      match trim_len s with
      | O => String c (trim_end_fuel f r)
      | k => let rest := trim_end_fuel f (str_drop k s) in
             if falsy rest then EmptyString else substring 0 k s ++ rest
      end
    end
  end.

Definition js_trim (s : string) : string :=
  let t := trim_start_fuel (String.length s) s in
  trim_end_fuel (String.length t) t.

(** [s.replace(needle, repl)] with a string pattern: first occurrence. *)
Fixpoint replace_first (needle repl s : string) : string :=
  if starts_with needle s then repl ++ str_drop (String.length needle) s
  else match s with
       | EmptyString => EmptyString
       | String c r => String c (replace_first needle repl r)
       end.

(** [data] of a [select("id").maybeSingle()] is truthy. *)
Definition found (a : answer) : bool :=
  match a with AId (Some _) => true | _ => false end.

(* ================================================================= *)
(** ** verify-code (unnamed part_003) *)

Definition verify_code_body (now : Z) (j : json verify_req) : prog response :=
  req <- from_json j ;;
  let phone := vr_phone req in
  let code := vr_code req in
  if falsy phone || falsy code then Throw "Phone and code are required" else
  if negb (digits_exactly 6 code) then Throw "Invalid code format" else
  match normalizePhone phone with
  | None => Throw "Invalid phone number format"
  | Some np =>
    attemptAllowed <- checkRateLimit np "verify_attempt" now ;;
    if negb attemptAllowed then Ret (mkResp 429 (JFailure MSG_RATE_LIMITED)) else
    failuresAllowed <- checkRateLimit np "verify_fail" now ;;
    if negb failuresAllowed then Ret (mkResp 429 (JFailure MSG_LOCKED)) else
    _ <- recordRateLimit np "verify_attempt" now ;;
    Call (ConsumeCode np code now) (fun a =>
      match a with
      | AErr _ m => Log ("Database error: " ++ m) (Throw "Database error")
      | ARow (Some _) => Ret (mkResp 200 JSuccess)
      | _ =>
          _ <- recordRateLimit np "verify_fail" now ;;
          Ret (mkResp 200 (JFailure MSG_INVALID_CODE))
      end)
  end.

Definition verify_code_handler (now : Z) (j : json verify_req) : prog response :=
  catch (fun m => mkResp 500 (JFailure (sanitizeError m))) (verify_code_body now j).

(* ================================================================= *)
(** ** create-booking (public path) *)

(** Shared tail of the booking paths after the advisory pre-checks: the
    insert guarded by the unique index, then the best-effort confirmation
    SMS through [send-sms]. *)
Definition create_booking_body (today now : Z) (j : json booking_req) : prog response :=
  req <- from_json j ;;
  let phone := br_phone req in
  let code := br_code req in
  let name := br_customer_name req in
  let date := br_booking_date req in
  let time := br_booking_time req in
  if falsy phone || falsy code || falsy name || falsy date || falsy time
  then Throw "Missing required fields" else
  if negb (digits_exactly 6 code) then Ret (mkResp 200 (JFailure MSG_CODE_FORMAT)) else
  match normalizePhone phone with
  | None => Throw "Invalid phone number format"
  | Some np =>
    if negb (isValidBookingDate today date)
    then Ret (mkResp 200 (JFailure MSG_INVALID_DATE)) else
    Call (ConsumeCode np code now) (fun a =>
      match a with
      | AErr _ m => Log ("Database error: " ++ m) (Throw "Database error")
      | ARow (Some _) =>
        Call (SelectActiveBooking date time) (fun existing =>
          if found existing then Ret (mkResp 200 (JFailure MSG_SLOT_TAKEN)) else
          Call (SelectClosedSlot date time) (fun closed =>
            if found closed then Ret (mkResp 200 (JFailure MSG_SLOT_CLOSED)) else
            Call (InsertBooking (js_trim name) np date time "confirmed") (fun ins =>
              match ins with
              | AErr c m =>
                  if String.eqb c "23505" then Ret (mkResp 200 (JFailure MSG_SLOT_TAKEN))
                  else Log ("Booking error: " ++ m) (Throw "Failed to create booking")
              | ABooking b =>
                  Call (InvokeSendSms ("0" ++ str_drop 4 np) date time name)
                       (fun _ => Ret (mkResp 200 (JSuccessBooking b)))
              | _ => Throw "Cannot read properties of null (reading 'id')"
              end)))
      | _ => Ret (mkResp 200 (JFailure MSG_INVALID_CODE))
      end)
  end.

Definition create_booking_handler (today now : Z) (j : json booking_req) : prog response :=
  catch (fun m => mkResp 500 (JFailure (sanitizeError m))) (create_booking_body today now j).

(* ================================================================= *)
(** ** admin-create-booking (current version, create-booking/index.ts) *)

(** [authHeader]/[getUser]/[has_role]: [k] runs for an administrator. *)
Definition admin_gate (auth : option string) (k : prog response) : prog response :=
  match auth with
  | None => Ret (mkResp 401 (JFailure "Unauthorized"))
  | Some h =>
    Call (GetUser (replace_first "Bearer " "" h)) (fun u =>
      match u with
      | AUser (Some uid) =>
          Call (HasRole uid "admin") (fun r =>
            match r with
            | ABool true => k
            | _ => Ret (mkResp 403 (JFailure "Forbidden - Admin only"))
            end)
      | _ => Ret (mkResp 401 (JFailure "Unauthorized"))
      end)
  end.

Definition admin_create_booking_body (today : Z) (auth : option string)
    (j : json admin_req) : prog response :=
  admin_gate auth (
  req <- from_json j ;;
  let name := ar_customer_name req in
  let phone := ar_customer_phone req in
  let date := ar_booking_date req in
  let time := ar_booking_time req in
  if falsy name || falsy phone || falsy date || falsy time
  then Throw "Missing required fields" else
  match normalizePhone phone with
  | None => Throw "Invalid phone number format"
  | Some np =>
    if negb (isValidBookingDate today date)
    then Ret (mkResp 200 (JFailure MSG_INVALID_DATE)) else
    Call (SelectActiveBooking date time) (fun existing =>
      if found existing then Ret (mkResp 200 (JFailure MSG_SLOT_TAKEN)) else
      Call (SelectClosedSlot date time) (fun closed =>
        if found closed then Ret (mkResp 200 (JFailure MSG_SLOT_CLOSED_ADMIN)) else
        Call (InsertBooking (js_trim name) np date time "confirmed") (fun ins =>
          match ins with
          | AErr c m =>
              if String.eqb c "23505" then Ret (mkResp 200 (JFailure MSG_SLOT_TAKEN))
              else Log ("Booking error: " ++ m) (Throw "Failed to create booking")
          | ABooking b =>
              Call (InvokeSendSms ("0" ++ str_drop 4 np) date time name)
                   (fun _ => Ret (mkResp 200 (JSuccessBooking b)))
          | _ => Throw "Cannot read properties of null (reading 'id')"
          end)))
  end).

Definition admin_create_booking_handler (today : Z) (auth : option string)
    (j : json admin_req) : prog response :=
  catch (fun m => mkResp 500 (JFailure (sanitizeError m)))
        (admin_create_booking_body today auth j).

(* ================================================================= *)
(** ** admin-create-booking (earlier version, unnamed part_001) *)

Definition admin_create_booking_v1_body (twilio_configured : bool) (auth : option string)
    (j : json admin_req) : prog response :=
  admin_gate auth (
  req <- from_json j ;;
  let name := ar_customer_name req in
  let phone := ar_customer_phone req in
  let date := ar_booking_date req in
  let time := ar_booking_time req in
  if falsy name || falsy phone || falsy date || falsy time
  then Throw "Missing required fields" else
  Call (InsertBooking (js_trim name) (js_trim phone) date time "confirmed") (fun ins =>
    match ins with
    | AErr _ m => Log ("Booking error: " ++ m) (Throw "Failed to create booking")
    | ABooking b =>
        let formatted := if starts_with "0" phone then "+972" ++ str_drop 1 phone else phone in
        if twilio_configured then
          Call (TwilioSend formatted
                  ("✂️ התור שלך אושר!" ++ NL ++ "📅 תאריך: " ++ date ++ NL ++ "⏰ שעה: " ++
                   time ++ NL ++ NL ++ "BARBERSHOP by Mohammad Eyad"))
               (fun _ => Ret (mkResp 200 (JSuccessBooking b)))
        else Ret (mkResp 200 (JSuccessBooking b))
    | _ => Throw "Cannot read properties of null (reading 'id')"
    end)).

(** The catch block returns [error.message] unchanged. *)
Definition admin_create_booking_v1_handler (twilio_configured : bool)
    (auth : option string) (j : json admin_req) : prog response :=
  catch (fun m => mkResp 500 (JFailure m))
        (admin_create_booking_v1_body twilio_configured auth j).

(* ================================================================= *)
(** ** send-sms (unnamed part_002): code issuance and SMS dispatch *)

Fixpoint digits_rev (fuel : nat) (n : Z) : string :=
  match fuel with
  | O => EmptyString
  | S f =>
      let last := String (ascii_of_nat (48 + Z.to_nat (n mod 10))) EmptyString in
      if n <? 10 then last else digits_rev f (n / 10) ++ last
  end.

(** [String(n)] for [n >= 0]. *)
Definition Z_to_string (n : Z) : string := digits_rev 20 n.

(** The calendar (year, month, day) of a day number. *)
Definition civil_from_days (z : Z) : Z * Z * Z :=
  let z' := z + 719468 in
  let era := z' / 146097 in
  let doe := z' - era * 146097 in
  let yoe := (doe - doe / 1460 + doe / 36524 - doe / 146096) / 365 in
  let doy := doe - (365 * yoe + yoe / 4 - yoe / 100) in
  let mp := (5 * doy + 2) / 153 in
  let d := doy - (153 * mp + 2) / 5 + 1 in
  let m := if mp <? 10 then mp + 3 else mp - 9 in
  let y := yoe + era * 400 + (if m <=? 2 then 1 else 0) in
  (y, m, d).

Definition HEBREW_DAYS : list string :=
  ["ראשון"; "שני"; "שלישי"; "רביעי"; "חמישי"; "שישי"; "שבת"].

(** [formatDateHebrew]; an Invalid Date prints [undefined] and [NaN]. *)
Definition formatDateHebrew (dateStr : string) : string :=
  match booking_day dateStr with
  | Some dn =>
      let '(_, m, d) := civil_from_days dn in
      let dayName := nth (Z.to_nat ((dn + 4) mod 7)) HEBREW_DAYS "undefined" in
      "יום " ++ dayName ++ " " ++ Z_to_string d ++ "/" ++ Z_to_string m
  | None => "יום undefined NaN/NaN"
  end.

(** [data?.date ? formatDateHebrew(data.date) : data?.date] in a template. *)
Definition date_text (date : string) : string :=
  if falsy date then "undefined" else formatDateHebrew date.

Definition SIGNATURE := "BARBERSHOP by Mohammad Eyad".

(** [twilio_configured]: the three Twilio variables are set;
    [random_code]: [Math.floor(100000 + Math.random() * 900000).toString()]. *)
Definition send_sms_body (twilio_configured : bool) (random_code : string) (now : Z)
    (j : json sms_req) : prog response :=
  if negb twilio_configured
  then Log "Missing Twilio credentials" (Throw "Twilio credentials not configured") else
  req <- from_json j ;;
  let phone := sr_phone req in
  if falsy phone || negb (is_local_mobile phone) then Throw "Invalid phone number format" else
  let formattedPhone := "+972" ++ str_drop 1 phone in
  let twilio (message : string) : prog response :=
    Call (TwilioSend formattedPhone message) (fun a =>
      match a with
      | AHttp true sid _ => Ret (mkResp 200 (JSmsSent sid (sr_type req)))
      | AHttp false _ (Some m) =>
          if falsy m then Throw "Failed to send SMS" else Throw m
      | AErr _ m => Throw m
      | _ => Throw "Failed to send SMS"
      end) in
  let t := sr_type req in
  if String.eqb t "verification" then
    let code := if falsy (sr_code req) then random_code else sr_code req in
    Call (DeleteCodes phone) (fun _ =>
    Call (InsertCode (mkVrow phone code (now + 5 * 60 * 1000) false)) (fun _ =>
    twilio ("קוד האימות שלך הוא: " ++ code ++ NL ++ SIGNATURE)))
  else if String.eqb t "booking_confirmation" then
    twilio ("התור שלך אושר!" ++ NL ++ "תאריך: " ++ date_text (sr_date req) ++ NL ++
            "שעה: " ++ sr_time req ++ NL ++ SIGNATURE)
  else if String.eqb t "booking_cancelled" then
    twilio ("התור שלך בתאריך " ++ date_text (sr_date req) ++ " בשעה " ++ sr_time req ++
            " בוטל." ++ NL ++ SIGNATURE)
  else if String.eqb t "booking_updated" then
    twilio ("התור שלך עודכן!" ++ NL ++ "תאריך: " ++ date_text (sr_date req) ++ NL ++
            "שעה: " ++ sr_time req ++ NL ++ SIGNATURE)
  else Throw "Invalid message type".

(** The catch block returns [{error: error.message}] unchanged. *)
Definition send_sms_handler (twilio_configured : bool) (random_code : string) (now : Z)
    (j : json sms_req) : prog response :=
  catch (fun m => mkResp 500 (JError m)) (send_sms_body twilio_configured random_code now j).

(* ================================================================= *)
(** ** sms-webhook: cancellation by an inbound "0" *)

(** The webhook's own [toLocalPhone]. *)
Definition webhook_toLocalPhone (from : string) : string :=
  if starts_with "+972" from then "0" ++ str_drop 4 from else from.

(** [s.length] of a UTF-8 encoded string: its UTF-16 code units (one per
    code point below U+10000, two above). *)
Fixpoint utf16_length (s : string) : nat :=
  match s with
  | EmptyString => 0
  | String c r =>
      let n := nat_of_ascii c in
      (if n <? 128 then 1 else if n <? 192 then 0 else if n <? 240 then 1 else 2) + utf16_length r
  end%nat.

(** A time of length 5 (["HH:MM"]) gets [":00"] appended; other values are
    used as they are. *)
Definition time_part (t : string) : string :=
  if Nat.eqb (utf16_length t) 5 then t ++ ":00" else t.

(** [new Date(`${b.booking_date}T${timePart}`).getTime()]. *)
Definition booking_datetime (b : booking) : option Z :=
  js_date_ms (b_booking_date b ++ "T" ++ time_part (b_booking_time b)).

Definition THREE_HOURS_MS : Z := 3 * 60 * 60 * 1000.

Definition twiml (text : string) : response := mkResp 200 (Twiml text).

Definition MSG_NO_MESSAGE := "תודה. לא התקבלה הודעה תקינה.".
Definition MSG_FETCH_FAILED := "אירעה שגיאה פנימית, נסה שוב מאוחר יותר.".
Definition MSG_CANCEL_FAILED := "לא הצלחנו לבטל את התור. נסה שוב מאוחר יותר.".
Definition MSG_NOT_CANCELLABLE :=
  "לא ניתן לבטל את התור - הביטול חייב להיעשות לפחות 3 שעות לפני התור או שאין תורים מתאימים.".
Definition MSG_HELP := "הודעה לא מזוהה. לשליחת ביטול תשלח 0 ואנו נבדוק את האפשרות לביטול.".
Definition MSG_WEBHOOK_ERROR := "שגיאה פנימית, נסה שנית מאוחר יותר.".

Definition cancelled_text (b : booking) : string :=
  "התור שלך בתאריך " ++ b_booking_date b ++ " בשעה " ++ b_booking_time b ++ " בוטל בהצלחה.".

(** The [for (const b of bookings)] loop, with its [continue], its update and
    its [break]; an exhausted loop falls through to the "not cancellable"
    reply. *)
Fixpoint cancel_loop (now : Z) (bs : list booking) : prog response :=
  match bs with
  | [] => Ret (twiml MSG_NOT_CANCELLABLE)
  | b :: rest =>
      match booking_datetime b with
      | None => cancel_loop now rest
      | Some t =>
          if THREE_HOURS_MS <=? t - now then
            Call (CancelBooking (b_id b)) (fun a =>
              match a with
              | AErr _ m => Log ("Failed to cancel booking: " ++ m) (Ret (twiml MSG_CANCEL_FAILED))
              | _ => Ret (twiml (cancelled_text b))
              end)
          else cancel_loop now rest
      end
  end.

(** [form]: the [Body] and [From] fields of the form data. *)
Definition sms_webhook_body (now : Z) (form : json (string * string)) : prog response :=
  f <- from_json form ;;
  let '(body_, from) := f in
  if falsy from || falsy body_ then Ret (twiml MSG_NO_MESSAGE) else
  let text := js_trim body_ in
  let phone := webhook_toLocalPhone from in
  if String.eqb text "0" then
    Call (SelectPhoneBookings phone) (fun a =>
      match a with
      | AErr _ m => Log ("DB error fetching bookings for cancellation: " ++ m)
                        (Ret (twiml MSG_FETCH_FAILED))
      | ABookings bs => cancel_loop now bs
      | _ => cancel_loop now []
      end)
  else Ret (twiml MSG_HELP).

Definition sms_webhook_handler (now : Z) (form : json (string * string)) : prog response :=
  catch (fun _ => twiml MSG_WEBHOOK_ERROR) (sms_webhook_body now form).

(** A public booking request passes the field and code-format checks. *)
Definition booking_req_fields_ok (req : booking_req) : bool :=
  negb (falsy (br_phone req)) && negb (falsy (br_code req)) &&
  negb (falsy (br_customer_name req)) && negb (falsy (br_booking_date req)) &&
  negb (falsy (br_booking_time req)) && digits_exactly 6 (br_code req).

(** The two statements of a code issuance in send-sms, run one after the
    other: delete the phone's rows, insert the fresh row. *)
Definition issue_code (ext : op -> answer) (phone code : string) (now : Z) (w : world) : world :=
  snd (exec_op ext (InsertCode (mkVrow phone code (now + 5 * 60 * 1000) false))
         (snd (exec_op ext (DeleteCodes phone) w))).

(** A sequence of [ConsumeCode] statements at the times [ts]. *)
Fixpoint consume_seq (ext : op -> answer) (phone code : string) (ts : list Z) (w : world)
    : list answer * world :=
  match ts with
  | [] => ([], w)
  | t :: r =>
      let (a, w') := exec_op ext (ConsumeCode phone code t) w in
      let (as_, w'') := consume_seq ext phone code r w' in (a :: as_, w'')
  end.

(** The table after the issued row of [phone] has been consumed: the other
    phones' rows and the used row. *)
Definition state_after_use (w : world) (phone code : string) (exp : Z) : world :=
  set_codes (filter (fun r => negb (String.eqb (v_phone r) phone)) (w_codes w)
             ++ [mkVrow phone code exp true])%list w.

(* ================================================================= *)
(** ** Concurrent requests

    Requests are handled independently; the only serialization point is the
    database, which runs one statement at a time.  A schedule lists which
    request issues its next statement. *)

(** Advance a request to its next statement and run it. *)
Fixpoint step_prog {A} (ext : op -> answer) (p : prog A) (w : world) : prog A * world :=
  match p with
  | Call o k => let (a, w') := exec_op ext o w in (k a, w')
  | Log _ n => step_prog ext n w
  | _ => (p, w)
  end.

Fixpoint set_nth {X} (i : nat) (x : X) (l : list X) : list X :=
  match i, l with
  | _, [] => []
  | O, _ :: r => x :: r
  | S j, y :: r => y :: set_nth j x r
  end.

Fixpoint run_sched {A} (ext : op -> answer) (sched : list nat) (ps : list (prog A)) (w : world)
    : list (prog A) * world :=
  match sched with
  | [] => (ps, w)
  | i :: r =>
      match nth_error ps i with
      | Some p => let (p', w') := step_prog ext p w in run_sched ext r (set_nth i p' ps) w'
      | None => run_sched ext r ps w
      end
  end.

Definition empty_world : world := mkWorld [] [] [] [] 1.

(** Twilio accepts every message. *)
Definition twilio_ok : op -> answer :=
  fun o => match o with TwilioSend _ _ => AHttp true "SM1" None | _ => AUnit end.

Definition sms_verification_req (phone code : string) : sms_req :=
  mkSmsReq phone "verification" code "" "" "".

Definition slot_of (b : booking) : string * string := (b_booking_date b, b_booking_time b).

(** At most one non-cancelled booking per (booking_date, booking_time). *)
Definition slot_unique (bs : list booking) : Prop :=
  NoDup (map slot_of (filter active bs)).

(** On every path, an insert refused with 23505 is answered by [R] at once. *)
Fixpoint insert_conflict_reply {A} (R : A) (p : prog A) : Prop :=
  match p with
  | Ret _ | Throw _ => True
  | Call o k =>
      match o with
      | InsertBooking _ _ _ _ _ => forall m, k (AErr "23505" m) = Ret R
      | _ => True
      end /\ forall a, insert_conflict_reply R (k a)
  | Log _ n => insert_conflict_reply R n
  end.

(** On every path, a pre-check that finds an active booking in the slot is
    answered by [R] at once. *)
Fixpoint taken_precheck_reply {A} (R : A) (p : prog A) : Prop :=
  match p with
  | Ret _ | Throw _ => True
  | Call o k =>
      match o with
      | SelectActiveBooking _ _ => forall id, k (AId (Some id)) = Ret R
      | _ => True
      end /\ forall a, taken_precheck_reply R (k a)
  | Log _ n => taken_precheck_reply R n
  end.

Definition SLOT_UNAVAILABLE : response := mkResp 200 (JFailure MSG_SLOT_TAKEN).

(** What the sms-webhook cancellation should do, in the words of its
    description: a booking qualifies when its composed date-time parses and
    lies at least three hours after [now]. *)
Definition eligible (now : Z) (b : booking) : bool :=
  match booking_datetime b with
  | Some t => THREE_HOURS_MS <=? t - now
  | None => false
  end.

(** The rows the webhook's select returns for [phone]: its non-cancelled
    bookings ordered by (booking_date, booking_time). *)
Definition phone_bookings (phone : string) (w : world) : list booking :=
  sort_slots (filter (fun b => String.eqb (b_customer_phone b) phone && active b) (w_bookings w)).

Definition booking_eqb (x y : booking) : bool :=
  (b_id x =? b_id y) && String.eqb (b_customer_name x) (b_customer_name y) &&
  String.eqb (b_customer_phone x) (b_customer_phone y) &&
  String.eqb (b_booking_date x) (b_booking_date y) &&
  String.eqb (b_booking_time x) (b_booking_time y) && String.eqb (b_status x) (b_status y).

(** Number of rows whose value differs between two versions of the table. *)
Fixpoint changed_rows (old new : list booking) : nat :=
  match old, new with
  | x :: r, y :: r' => (if booking_eqb x y then 0 else 1) + changed_rows r r'
  | _, _ => 0
  end%nat.

(** An inbound "0" from [from]. *)
Definition cancel_form (from : string) : json (string * string) := JsonOk ("0", from).

(** A phone with bookings at 10:00 and 14:00 on 2026-10-20; the request
    arrives at 09:00 that day. *)
Definition booking_10 : booking := mkBooking 1 "Dana" "0541234567" "2026-10-20" "10:00" "confirmed".
Definition booking_14 : booking := mkBooking 2 "Dana" "0541234567" "2026-10-20" "14:00" "confirmed".
Definition webhook_world : world := mkWorld [] [booking_10; booking_14] [] [] 3.
Definition webhook_now : Z := days_from_civil 2026 10 20 * 86400000 + 9 * 3600000.
Definition webhook_world_after : world :=
  set_bookings (map (cancel_row (b_id booking_14)) (w_bookings webhook_world)) webhook_world.

(** A booking stored at "24:00" on 2026-10-20 and one at 10:00 on
    2026-10-21, for the same phone. *)
Definition booking_24 : booking := mkBooking 1 "Dana" "0541234567" "2026-10-20" "24:00" "confirmed".
Definition booking_next_10 : booking := mkBooking 2 "Dana" "0541234567" "2026-10-21" "10:00" "confirmed".
Definition webhook_world_24 : world := mkWorld [] [booking_next_10; booking_24] [] [] 3.

(** A message body of a no-break space (U+00A0, UTF-8 [C2 A0]) and "0". *)
Definition nbsp_zero : string := String (ascii_of_nat 194) (String (ascii_of_nat 160) "0").

(* ================================================================= *)
(** ** Further shared helpers (_shared/security.ts) *)

(** [ALLOWED_ORIGINS]; [is_staging] is [IS_STAGING === "true"]. *)
Definition ALLOWED_ORIGINS (is_staging : bool) : list string :=
  (["https://mea-barber.com"; "https://www.mea-barber.com"] ++
   (if is_staging then ["http://localhost:8080"; "http://localhost:5173"] else []))%list.

(** [getCorsHeaders(origin)]; [None] is a missing [Origin] header. *)
Definition getCorsHeaders (is_staging : bool) (origin : option string) : list (string * string) :=
  let allowedOrigin :=
    match origin with
    | Some o => if negb (falsy o) && existsb (String.eqb o) (ALLOWED_ORIGINS is_staging)
                then o else hd "" (ALLOWED_ORIGINS is_staging)
    | None => hd "" (ALLOWED_ORIGINS is_staging)
    end in
  [("Access-Control-Allow-Origin", allowedOrigin);
   ("Access-Control-Allow-Headers", "authorization, x-client-info, apikey, content-type");
   ("Access-Control-Allow-Methods", "POST, OPTIONS")].

(** A header of a header record. *)
Fixpoint header (name : string) (hs : list (string * string)) : option string :=
  match hs with
  | [] => None
  | (k, v) :: r => if String.eqb k name then Some v else header name r
  end.

(** [isValidIsraeliPhone]: [/^\+9725\d{8}$/] on the normalized number; a
    throwing [normalizePhone] gives [false]. *)
Definition isValidIsraeliPhone (phone : string) : bool :=
  match normalizePhone phone with
  | Some normalized => starts_with "+9725" normalized && digits_exactly 8 (str_drop 5 normalized)
  | None => false
  end.

(** [s.slice(-n)] for [n > 0]. *)
Definition slice_last (n : nat) (s : string) : string := str_drop (String.length s - n) s.

(** [maskPhone]: [local.slice(0, 2) + "***" + local.slice(-4)], or the
    fixed mask when [toLocalPhone] throws. *)
Definition maskPhone (phone : string) : string :=
  match toLocalPhone phone with
  | Some local => substring 0 2 local ++ "***" ++ slice_last 4 local
  | None => "***masked***"
  end.

(** [isTestAccount]; [is_staging] and [test_phone_env] are [IS_STAGING] and
    [TEST_PHONE] ([""] when unset). *)
Definition isTestAccount (is_staging : bool) (test_phone_env : string) (phone : string) : bool :=
  if negb is_staging then false else
  match normalizePhone phone with
  | None => false
  | Some normalized =>
      if falsy test_phone_env then String.eqb normalized ""
      else match normalizePhone test_phone_env with
           | Some testNormalized => String.eqb normalized testNormalized
           | None => false
           end
  end.

Fixpoint count_chars (f : ascii -> bool) (s : string) : nat :=
  match s with
  | EmptyString => 0
  | String c r => (if f c then 1 else 0) + count_chars f r
  end%nat.

(** The SQL function [cleanup_old_rate_limits()] run at [now]:
    [DELETE FROM rate_limits WHERE created_at < NOW() - INTERVAL '1 hour']. *)
Definition cleanup_old_rate_limits (now : Z) (rs : list rl_row) : list rl_row :=
  filter (fun r => negb (rl_created_at r <? now - 60 * 60000)) rs.

(** The digits of [v] in exactly [n] places, zeros in front. *)
Fixpoint pad (n : nat) (v : Z) : string :=
  match n with
  | O => EmptyString
  | S k => pad k (v / 10) ++ String (ascii_of_nat (48 + Z.to_nat (v mod 10))) EmptyString
  end.

(** The calendar date [y-m-d] written [YYYY-MM-DD]. *)
Definition iso_date (y m d : Z) : string := pad 4 y ++ "-" ++ pad 2 m ++ "-" ++ pad 2 d.

(** ** Sample inputs *)

Definition sample_today : Z := days_from_civil 2026 10 19.

Definition rl_sample (now : Z) : world :=
  mkWorld [] [] []
    [mkRl "+972541234567" "sms_send" 0;
     mkRl "+972541234567" "sms_send" (10 * 60000);
     mkRl "+972541234567" "sms_send" (20 * 60000)] 1.

Definition no_ext : op -> answer := fun _ => AUnit.

Definition admin_sample_req : admin_req := mkAdminReq "Dana" "0541234567" "2026-10-20" "10:00".

(** Auth answers: the token belongs to an administrator. *)
Definition admin_ext : op -> answer :=
  fun o => match o with
           | GetUser _ => AUser (Some "u1")
           | HasRole _ _ => ABool true
           | _ => AUnit
           end.

Definition occupied_world : world :=
  mkWorld [] [mkBooking 1 "Noa" "+972501111111" "2026-10-20" "10:00" "confirmed"] [] [] 2.

Definition safe_outputs : list string := GENERIC_ERROR :: map snd SAFE_ERROR_MESSAGES.

(** Twilio refuses the message with its own error text. *)
Definition twilio_refuses : op -> answer :=
  fun o => match o with
           | TwilioSend _ _ => AHttp false "" (Some "Authenticate")
           | _ => AUnit
           end.

(** Number of [rate_limits] rows that [check_rate_limit] counts. *)
Definition rl_count (rs : list rl_row) (ident action : string) (window_minutes now : Z) : Z :=
  Z.of_nat (length (filter (rl_in_window ident action window_minutes now) rs)).

(** The store after the atomic [UPDATE ... SET verified = true] of a code. *)
Definition consume_world (np code : string) (now : Z) (w : world) : world :=
  set_codes (map (fun x => if code_matches np code now x then mark_verified x else x) (w_codes w)) w.

(** The literal reply texts of the handlers' own branches. *)
Definition FIXED_REPLIES : list string :=
  [MSG_RATE_LIMITED; MSG_LOCKED; MSG_INVALID_CODE; MSG_CODE_FORMAT; MSG_INVALID_DATE;
   MSG_SLOT_TAKEN; MSG_SLOT_CLOSED; MSG_SLOT_CLOSED_ADMIN; "Unauthorized"; "Forbidden - Admin only"].

(** A reply is a success or one of the fixed texts (including the
    sanitized error texts). *)
Definition fixed_reply (r : response) : bool :=
  match r_body r with
  | JSuccess | JSuccessBooking _ => true
  | JFailure s => existsb (String.eqb s) (FIXED_REPLIES ++ safe_outputs)
  | _ => false
  end.

Definition sample_booking_req : booking_req :=
  mkBookingReq "0541234567" "123456" "Dana" "2026-10-20" "10:00".

(** An unspent code for +972541234567 and the given bookings. *)
Definition code_world (bs : list booking) : world :=
  mkWorld [mkVrow "+972541234567" "123456" 100 false] bs [] [] 2.

(** [k] rate-limit rows of one action for +972541234567, at time 0. *)
Definition rate_world (action : string) (k : nat) : world :=
  mkWorld [] [] [] (repeat (mkRl "+972541234567" action 0) k) 1.

(** A booking stored the way create-booking stores it. *)
Definition normalized_booking_world : world :=
  mkWorld [] [mkBooking 1 "Dana" "+972541234567" "2026-10-20" "10:00" "confirmed"] [] [] 2.

(* ================================================================= *)
(** * Properties *)

(** ** Phone normalization *)

Example normalizePhone_local : normalizePhone "054-123 4567" = Some "+972541234567".
Proof. reflexivity. Qed.

Example normalizePhone_intl : normalizePhone "972541234567" = Some "+972541234567".
Proof. reflexivity. Qed.

Example normalizePhone_bad : normalizePhone "12345" = None.
Proof. reflexivity. Qed.

Example toLocalPhone_ex : toLocalPhone "+972541234567" = Some "0541234567".
Proof. reflexivity. Qed.

Lemma str_filter_id (keep : ascii -> bool) (s : string) :
  all_chars keep s = true -> str_filter keep s = s.
Proof.
  induction s as [|c r IH]; simpl; [reflexivity|].
  intros H. apply andb_true_iff in H as [Hc Hr].
  rewrite Hc, IH; auto.
Qed.

Lemma all_chars_filter (keep : ascii -> bool) (s : string) :
  all_chars keep (str_filter keep s) = true.
Proof.
  induction s as [|c r IH]; simpl; [reflexivity|].
  destruct (keep c) eqn:E; simpl; rewrite ?E; auto.
Qed.

Lemma all_chars_app (f : ascii -> bool) (s t : string) :
  all_chars f (s ++ t) = all_chars f s && all_chars f t.
Proof.
  induction s as [|c r IH]; simpl; [reflexivity|].
  rewrite IH, andb_assoc; reflexivity.
Qed.

Lemma all_chars_drop (f : ascii -> bool) (n : nat) (s : string) :
  all_chars f s = true -> all_chars f (str_drop n s) = true.
Proof.
  revert s; induction n as [|n IH]; intros [|c r] H; simpl in *; auto.
  apply andb_true_iff in H as [_ H]; auto.
Qed.

(** Every successful output of [normalizePhone] is made of digits and [+]
    and starts with ["+972"]. *)
Lemma normalizePhone_shape (p n : string) :
  normalizePhone p = Some n ->
  all_chars phone_char n = true /\ starts_with "+972" n = true.
Proof.
  unfold normalizePhone.
  set (cl := str_filter phone_char p).
  assert (Hcl : all_chars phone_char cl = true) by apply all_chars_filter.
  destruct (starts_with "+972" cl) eqn:E1.
  { intros [= <-]; auto. }
  destruct (starts_with "972" cl) eqn:E2.
  { intros [= <-]. split; [simpl; exact Hcl|].
    unfold starts_with in *; simpl. exact E2. }
  destruct (starts_with "0" cl) eqn:E3.
  { intros [= <-]. split.
    - simpl. exact (all_chars_drop _ 1 _ Hcl).
    - reflexivity. }
  destruct (digits_exactly 9 cl); [|discriminate].
  intros [= <-]. split.
  - simpl; exact Hcl.
  - reflexivity.
Qed.

Lemma normalizePhone_fixpoint (n : string) :
  all_chars phone_char n = true -> starts_with "+972" n = true ->
  normalizePhone n = Some n.
Proof.
  intros Hc Hs. unfold normalizePhone.
  rewrite (str_filter_id _ _ Hc), Hs. reflexivity.
Qed.

Lemma normalizePhone_idem (p n : string) :
  normalizePhone p = Some n -> normalizePhone n = Some n.
Proof.
  intros H. destruct (normalizePhone_shape p n H) as [Hc Hs].
  apply normalizePhone_fixpoint; assumption.
Qed.

Lemma all_digits_phone_chars (s : string) :
  all_chars is_digit s = true -> all_chars phone_char s = true.
Proof.
  induction s as [|c r IH]; simpl; [reflexivity|].
  intros H. apply andb_true_iff in H as [Hc Hr].
  rewrite IH by exact Hr. unfold phone_char. rewrite Hc. reflexivity.
Qed.

Lemma normalizePhone_local_mobile (p : string) :
  is_local_mobile p = true ->
  normalizePhone p = Some ("+972" ++ str_drop 1 p).
Proof.
  unfold is_local_mobile, digits_exactly.
  intros H. apply andb_true_iff in H as [Hpre H].
  apply andb_true_iff in H as [_ Hdig].
  unfold normalizePhone.
  rewrite (str_filter_id _ _ (all_digits_phone_chars _ Hdig)).
  destruct p as [|c r]; [discriminate|].
  cbn [starts_with] in Hpre. apply andb_true_iff in Hpre as [Hc _].
  apply Ascii.eqb_eq in Hc. subst c. reflexivity.
Qed.

(** C10. [normalizePhone] is idempotent on every input it accepts, and a
    local mobile number [05XXXXXXXX] normalizes to a ["+972"] number that
    [toLocalPhone] maps back to the original string. *)
Theorem normalizePhone_idempotent_roundtrip :
  (forall p n, normalizePhone p = Some n -> normalizePhone n = Some n) /\
  (forall p, is_local_mobile p = true ->
     exists n, normalizePhone p = Some n /\ starts_with "+972" n = true /\
               toLocalPhone n = Some p).
Proof.
  split; [exact normalizePhone_idem|].
  intros p Hp. exists ("+972" ++ str_drop 1 p).
  pose proof (normalizePhone_local_mobile p Hp) as Hn.
  split; [exact Hn|]. split; [reflexivity|].
  unfold toLocalPhone. rewrite (normalizePhone_idem _ _ Hn).
  destruct p as [|c r]; [discriminate|].
  unfold is_local_mobile in Hp. cbn [starts_with] in Hp.
  apply andb_true_iff in Hp as [Hp _].
  apply andb_true_iff in Hp as [Hc _]. apply Ascii.eqb_eq in Hc. subst c.
  reflexivity.
Qed.

Lemma normalizePhone_idempotent_roundtrip_witness :
  is_local_mobile "0541234567" = true /\
  exists n, normalizePhone "0541234567" = Some n /\ starts_with "+972" n = true /\
            toLocalPhone n = Some "0541234567".
Proof.
  split; [reflexivity|].
  apply (proj2 normalizePhone_idempotent_roundtrip). reflexivity.
Defined.

(** ** Dates *)

Example days_epoch : days_from_civil 1970 1 1 = 0.
Proof. reflexivity. Qed.

Example js_date_ms_ex :
  js_date_ms "1970-01-02T01:00:00" = Some (86400000 + 3600000) /\
  js_date_ms "2026-10-20T24:00:00" = Some (days_from_civil 2026 10 21 * 86400000) /\
  js_date_ms "2026-10-20T24:00:01" = None /\
  js_date_ms "2026-10-20T10:00:00+02:00" = Some (days_from_civil 2026 10 20 * 86400000 + 8 * 3600000) /\
  js_date_ms "2026-10-20T10:00:00.5Z" = Some (days_from_civil 2026 10 20 * 86400000 + 10 * 3600000 + 500) /\
  js_date_ms "2026-02-30T00:00:00" = Some (days_from_civil 2026 3 2 * 86400000) /\
  js_date_ms "2026-10-32T00:00:00" = date_fallback "2026-10-32T00:00:00" /\
  js_date_ms "2026-10-20 10:00" = date_fallback "2026-10-20 10:00".
Proof. vm_compute. repeat split. Qed.

Example booking_day_ex : booking_day "2026-10-19" = Some (days_from_civil 2026 10 19).
Proof. vm_compute. reflexivity. Qed.

Lemma str_app_assoc (a b c : string) : (a ++ b) ++ c = a ++ (b ++ c).
Proof. induction a as [|x a IH]; simpl; [reflexivity|]. rewrite IH. reflexivity. Qed.

Lemma str_length_app (a b : string) : String.length (a ++ b) = (String.length a + String.length b)%nat.
Proof. induction a as [|x a IH]; simpl; [reflexivity|]. rewrite IH. reflexivity. Qed.

Lemma digits_val_app (a b : string) (acc : Z) :
  digits_val (a ++ b) acc = digits_val b (digits_val a acc).
Proof. revert acc. induction a as [|x a IH]; intros acc; simpl; [reflexivity|]. apply IH. Qed.

Lemma pad_digit_val (v : Z) :
  digit_val (ascii_of_nat (48 + Z.to_nat (v mod 10))) = v mod 10.
Proof.
  assert (H : 0 <= v mod 10 < 10) by (apply Z.mod_pos_bound; lia).
  unfold digit_val. rewrite nat_ascii_embedding by lia. lia.
Qed.

Lemma pad_is_digit (v : Z) : is_digit (ascii_of_nat (48 + Z.to_nat (v mod 10))) = true.
Proof.
  assert (H : 0 <= v mod 10 < 10) by (apply Z.mod_pos_bound; lia).
  unfold is_digit. rewrite nat_ascii_embedding by lia.
  apply andb_true_iff; split; apply Nat.leb_le; lia.
Qed.

Lemma pad_length (n : nat) (v : Z) : String.length (pad n v) = n.
Proof.
  revert v. induction n as [|n IH]; intros v; [reflexivity|].
  cbn [pad]. rewrite str_length_app, IH. cbn [String.length]. lia.
Qed.

Lemma pad_all_digits (n : nat) (v : Z) : all_chars is_digit (pad n v) = true.
Proof.
  revert v. induction n as [|n IH]; intros v; [reflexivity|].
  cbn [pad]. rewrite all_chars_app, IH. cbn [all_chars]. rewrite pad_is_digit. reflexivity.
Qed.

Lemma pad_value (n : nat) (v acc : Z) :
  0 <= v < 10 ^ Z.of_nat n -> digits_val (pad n v) acc = acc * 10 ^ Z.of_nat n + v.
Proof.
  revert v acc. induction n as [|n IH]; intros v acc Hv.
  - simpl in *. lia.
  - cbn [pad]. rewrite digits_val_app.
    rewrite Nat2Z.inj_succ, Z.pow_succ_r in Hv by lia.
    rewrite IH.
    + cbn [digits_val]. rewrite pad_digit_val, Nat2Z.inj_succ, Z.pow_succ_r by lia.
      pose proof (Z.div_mod v 10). lia.
    + split; [apply Z.div_pos; lia|]. apply Z.div_lt_upper_bound; lia.
Qed.

Lemma digits_val_skip_zeros (s : string) :
  digits_val (skip_zeros s) 0 = digits_val s 0.
Proof.
  induction s as [|c r IH]; [reflexivity|]. cbn [skip_zeros].
  destruct (Ascii.eqb_spec c "0") as [->|_]; [|reflexivity].
  rewrite IH. reflexivity.
Qed.

Lemma skip_zeros_length (s : string) : (String.length (skip_zeros s) <= String.length s)%nat.
Proof.
  induction s as [|c r IH]; [simpl; lia|]. cbn [skip_zeros].
  destruct (Ascii.eqb c "0"); simpl; lia.
Qed.

Lemma substring_0_long (n : nat) (s : string) :
  (String.length s <= n)%nat -> substring 0 n s = s.
Proof.
  revert n. induction s as [|c r IH]; intros [|n] H; simpl in *; try reflexivity; try lia.
  rewrite IH by lia. reflexivity.
Qed.

Lemma numeral_value_pad (n : nat) (v : Z) :
  (n <= 9)%nat -> 0 <= v < 10 ^ Z.of_nat n -> numeral_value (pad n v) = v.
Proof.
  intros Hn Hv. unfold numeral_value.
  rewrite substring_0_long.
  - rewrite digits_val_skip_zeros, pad_value by exact Hv. lia.
  - pose proof (skip_zeros_length (pad n v)). rewrite pad_length in H. lia.
Qed.

Lemma digit_run_digits (p rest : string) :
  all_chars is_digit p = true ->
  match rest with String c _ => is_digit c = false | EmptyString => True end ->
  digit_run (p ++ rest) = (p, rest).
Proof.
  intros Hp Hr. induction p as [|c p IH].
  - destruct rest as [|c r]; simpl; [reflexivity|]. rewrite Hr. reflexivity.
  - simpl in Hp. apply andb_true_iff in Hp as [Hc Hp].
    simpl. rewrite Hc, IH by exact Hp. reflexivity.
Qed.

Lemma fixed_number_pad (n : nat) (v : Z) (rest : string) :
  (0 < n <= 9)%nat -> 0 <= v < 10 ^ Z.of_nat n ->
  match rest with String c _ => is_digit c = false | EmptyString => True end ->
  fixed_number n (pad n v ++ rest) = Some (v, rest).
Proof.
  intros Hn Hv Hr. unfold fixed_number.
  rewrite digit_run_digits by (apply pad_all_digits || exact Hr).
  rewrite pad_length, Nat.eqb_refl, numeral_value_pad by (lia || exact Hv).
  replace (Nat.eqb n 0) with false by (symmetry; apply Nat.eqb_neq; lia).
  reflexivity.
Qed.

Lemma ascii_sign_pad (n : nat) (v : Z) (rest : string) :
  (0 < n)%nat -> ascii_sign (pad n v ++ rest) = None.
Proof.
  intros Hn.
  assert (Hd : all_chars is_digit (pad n v) = true) by apply pad_all_digits.
  assert (Hl : String.length (pad n v) = n) by apply pad_length.
  destruct (pad n v) as [|c r]; [simpl in Hl; lia|].
  simpl in Hd. apply andb_true_iff in Hd as [Hc _].
  simpl. destruct (Ascii.eqb_spec c "+") as [->|_]; [discriminate|].
  destruct (Ascii.eqb_spec c "-") as [->|_]; [discriminate|]. reflexivity.
Qed.

Lemma days_from_civil_day (y m d : Z) :
  days_from_civil y m 1 + d - 1 = days_from_civil y m d.
Proof. unfold days_from_civil. cbv zeta. destruct (m <=? 2), (2 <? m); Z.div_mod_to_equations; lia. Qed.

Lemma days_from_civil_range (y m d : Z) :
  0 <= y <= 9999 -> 1 <= m <= 12 -> 1 <= d <= 31 ->
  -800000 <= days_from_civil y m d <= 3000000.
Proof.
  intros Hy Hm Hd. unfold days_from_civil. cbv zeta.
  destruct (m <=? 2) eqn:E1, (2 <? m) eqn:E2;
    rewrite ?Z.leb_le, ?Z.leb_gt, ?Z.ltb_lt, ?Z.ltb_ge in E1, E2;
    Z.div_mod_to_equations; lia.
Qed.

(** [new Date(iso_date y m d + "T00:00:00")] is midnight of that day. *)
Lemma js_date_ms_iso_midnight (y m d : Z) :
  0 <= y <= 9999 -> 1 <= m <= 12 -> 1 <= d <= 31 ->
  js_date_ms (iso_date y m d ++ "T00:00:00") = Some (days_from_civil y m d * 86400000).
Proof.
  intros Hy Hm Hd. unfold js_date_ms, es5_date_time, iso_date.
  rewrite !str_app_assoc.
  rewrite ascii_sign_pad by lia.
  rewrite fixed_number_pad by (simpl; lia || exact eq_refl).
  cbn [skip_symbol Ascii.eqb String.append Bool.eqb].
  rewrite fixed_number_pad by (simpl; lia || exact eq_refl).
  replace ((1 <=? m) && (m <=? 12)) with true by (symmetry; apply andb_true_iff; split; apply Z.leb_le; lia).
  cbn [negb skip_symbol Ascii.eqb String.append Bool.eqb].
  rewrite fixed_number_pad by (simpl; lia || exact eq_refl).
  replace ((1 <=? d) && (d <=? 31)) with true by (symmetry; apply andb_true_iff; split; apply Z.leb_le; lia).
  assert (Hsep : time_separator "T00:00:00" = Some "00:00:00") by reflexivity.
  assert (Htime : es5_time "00:00:00" = Some 0) by reflexivity.
  cbv beta iota zeta. rewrite Hsep, Htime. cbv beta iota.
  rewrite days_from_civil_day, Z.add_0_r.
  pose proof (days_from_civil_range y m d Hy Hm Hd).
  replace (Z.abs _ <=? _) with true by (symmetry; apply Z.leb_le; lia).
  reflexivity.
Qed.


Lemma days_in_month_le (y m : Z) : days_in_month y m <= 31.
Proof.
  unfold days_in_month.
  destruct (m =? 2), (leap y), ((m =? 4) || (m =? 6) || (m =? 9) || (m =? 11)); lia.
Qed.

(** ** Booking date window *)

Lemma isValidBookingDate_iso (today y m d : Z) :
  0 <= y <= 9999 -> 1 <= m <= 12 -> 1 <= d <= 31 ->
  isValidBookingDate today (iso_date y m d) = true <->
  today <= days_from_civil y m d <= today + 60.
Proof.
  intros Hy Hm Hd. unfold isValidBookingDate.
  rewrite js_date_ms_iso_midnight by assumption.
  rewrite andb_true_iff, !Z.leb_le. split; intros; lia.
Qed.

(** The public handler answers [InvalidDate] for a well-formed request whose
    date fails the window. *)
Lemma create_booking_invalid_date (today now : Z) (req : booking_req) (np : string) :
  falsy (br_phone req) = false -> falsy (br_code req) = false ->
  falsy (br_customer_name req) = false -> falsy (br_booking_date req) = false ->
  falsy (br_booking_time req) = false ->
  digits_exactly 6 (br_code req) = true ->
  normalizePhone (br_phone req) = Some np ->
  isValidBookingDate today (br_booking_date req) = false ->
  create_booking_handler today now (JsonOk req) = Ret (mkResp 200 (JFailure MSG_INVALID_DATE)).
Proof.
  intros H1 H2 H3 H4 H5 H6 H7 H8.
  unfold create_booking_handler, create_booking_body. cbn [from_json bind].
  rewrite H1, H2, H3, H4, H5, H6, H7, H8. reflexivity.
Qed.

(** C6 (code_bug).  For a real calendar date written [YYYY-MM-DD] (years
    0000..9999), date validation accepts it exactly when
    [today <= date <= today + 60], both ends included, and a well-formed
    public booking request for [today - 1] or [today + 61] gets the
    [InvalidDate] reply.  But [new Date] takes any day field 01..31 and
    counts on into the next month, and it also takes shortened forms: on
    2026-10-19 the date "2026-11-31", which does not exist, passes the
    check as 2026-12-01, so does "2026-12", and create-booking books
    "2026-11-31". *)
Theorem booking_date_window_rollover (today : Z) :
  (forall y m d, 0 <= y <= 9999 -> 1 <= m <= 12 -> 1 <= d <= days_in_month y m ->
     isValidBookingDate today (iso_date y m d) = true <->
     today <= days_from_civil y m d <= today + 60) /\
  (forall now req np y m d,
     booking_req_fields_ok req = true ->
     normalizePhone (br_phone req) = Some np ->
     br_booking_date req = iso_date y m d ->
     0 <= y <= 9999 -> 1 <= m <= 12 -> 1 <= d <= days_in_month y m ->
     days_from_civil y m d = today - 1 \/ days_from_civil y m d = today + 61 ->
     create_booking_handler today now (JsonOk req) =
       Ret (mkResp 200 (JFailure MSG_INVALID_DATE))) /\
  (isValidBookingDate sample_today "2026-11-31" = true /\
   booking_day "2026-11-31" = Some (days_from_civil 2026 12 1) /\
   isValidBookingDate sample_today "2026-12" = true /\
   fst (fst (run no_ext (create_booking_handler sample_today 0
       (JsonOk (mkBookingReq "0541234567" "123456" "Dana" "2026-11-31" "10:00"))) (code_world []))) =
   Done (mkResp 200 (JSuccessBooking
           (mkBooking 2 "Dana" "+972541234567" "2026-11-31" "10:00" "confirmed")))).
Proof.
  split; [|split].
  - intros y m d Hy Hm Hd. apply isValidBookingDate_iso; try assumption.
    pose proof (days_in_month_le y m). lia.
  - intros now req np y m d Hok Hn Hdate Hy Hm Hd Hb.
    pose proof (days_in_month_le y m).
    unfold booking_req_fields_ok in Hok.
    repeat rewrite andb_true_iff in Hok.
    destruct Hok as [[[[[H1 H2] H3] H4] H5] H6].
    apply negb_true_iff in H1, H2, H3, H4, H5.
    apply (create_booking_invalid_date today now req np); try assumption.
    destruct (isValidBookingDate today (br_booking_date req)) eqn:E; [|reflexivity].
    rewrite Hdate in E. apply isValidBookingDate_iso in E; lia.
  - vm_compute. repeat split.
Qed.

Example booking_date_boundaries :
  isValidBookingDate sample_today "2026-10-19" = true /\
  isValidBookingDate sample_today "2026-10-18" = false /\
  isValidBookingDate sample_today "2026-12-18" = true /\
  isValidBookingDate sample_today "2026-12-19" = false.
Proof. vm_compute. repeat split. Qed.

(** ** Rate limiting *)

(** C4. With a configured action and a working database, [checkRateLimit]
    yields [count < max], where [count] is the number of records of that
    identifier and action strictly newer than [now - window]; the table is
    sms_send 3/60 min, verify_attempt 10/15 min, verify_fail 5/15 min; with
    sms_send records at 0, 10 and 20 minutes an attempt at 30 minutes is
    refused and one at 61 minutes is allowed. *)
Theorem checkRateLimit_window :
  (forall ext w ident action mx win now,
     lookup_config action RATE_LIMITS = Some (mx, win) ->
     run ext (checkRateLimit ident action now) w =
       (Done (Z.of_nat (length (filter (fun r =>
                 String.eqb (rl_identifier r) ident && String.eqb (rl_action_type r) action &&
                 (now - win * 60000 <? rl_created_at r)) (w_rate w))) <? mx), w, [])) /\
  lookup_config "sms_send" RATE_LIMITS = Some (3, 60) /\
  lookup_config "verify_attempt" RATE_LIMITS = Some (10, 15) /\
  lookup_config "verify_fail" RATE_LIMITS = Some (5, 15) /\
  fst (fst (run no_ext (checkRateLimit "+972541234567" "sms_send" (30 * 60000))
                (rl_sample 0))) = Done false /\
  fst (fst (run no_ext (checkRateLimit "+972541234567" "sms_send" (61 * 60000))
                (rl_sample 0))) = Done true.
Proof.
  split.
  - intros ext w ident action mx win now Hc.
    unfold checkRateLimit. rewrite Hc. reflexivity.
  - vm_compute. repeat split.
Qed.

Lemma checkRateLimit_window_witness :
  run no_ext (checkRateLimit "+972541234567" "verify_fail" 0) (rl_sample 0) =
    (Done true, rl_sample 0, []).
Proof.
  rewrite (proj1 checkRateLimit_window no_ext (rl_sample 0) "+972541234567"
             "verify_fail" 5 15 0 eq_refl).
  vm_compute. reflexivity.
Defined.

(** C8. [checkRateLimit] fails open: an action missing from [RATE_LIMITS]
    is allowed (with a warning), and an error of the count RPC is logged and
    yields [true]; [recordRateLimit] never throws, and logs an RPC error. *)
Theorem rate_limit_fail_open :
  (forall ident action now,
     lookup_config action RATE_LIMITS = None ->
     checkRateLimit ident action now =
       Log ("Unknown rate limit action: " ++ action) (Ret true)) /\
  (forall ident action now mx win,
     lookup_config action RATE_LIMITS = Some (mx, win) ->
     exists k, checkRateLimit ident action now = Call (RpcCheckRateLimit ident action mx win now) k /\
       forall c m, k (AErr c m) = Log ("Rate limit check error: " ++ m) (Ret true)) /\
  (forall ident action now,
     all_paths (fun _ => True) (fun _ => False) (recordRateLimit ident action now)) /\
  (forall ident action now,
     exists k, recordRateLimit ident action now = Call (RpcRecordRateLimit ident action now) k /\
       forall c m, k (AErr c m) = Log ("Rate limit record error: " ++ m) (Ret tt)).
Proof.
  split; [|split; [|split]].
  - intros ident action now H. unfold checkRateLimit. rewrite H. reflexivity.
  - intros ident action now mx win H. unfold checkRateLimit. rewrite H.
    eexists. split; [reflexivity|]. intros c m. reflexivity.
  - intros ident action now. simpl. intros [] ; simpl; exact I.
  - intros ident action now. eexists. split; [reflexivity|]. reflexivity.
Qed.

Lemma rate_limit_fail_open_witness :
  checkRateLimit "+972541234567" "login" 0 =
    Log ("Unknown rate limit action: " ++ "login") (Ret true) /\
  exists k, checkRateLimit "+972541234567" "sms_send" 0 =
              Call (RpcCheckRateLimit "+972541234567" "sms_send" 3 60 0) k /\
            forall c m, k (AErr c m) = Log ("Rate limit check error: " ++ m) (Ret true).
Proof.
  split.
  - apply (proj1 rate_limit_fail_open). reflexivity.
  - apply (proj1 (proj2 rate_limit_fail_open)). reflexivity.
Defined.

(** ** One-time codes *)

Lemma filter_code_matches_other_phones (phone code : string) (t : Z) (cs : list vrow) :
  filter (code_matches phone code t) (filter (fun r => negb (String.eqb (v_phone r) phone)) cs) = [].
Proof.
  induction cs as [|r cs IH]; simpl; [reflexivity|].
  destruct (String.eqb (v_phone r) phone) eqn:E; simpl; [exact IH|].
  unfold code_matches at 1. rewrite E. simpl. exact IH.
Qed.

Lemma map_mark_other_phones (phone code : string) (t : Z) (cs : list vrow) :
  map (fun x => if code_matches phone code t x then mark_verified x else x)
      (filter (fun r => negb (String.eqb (v_phone r) phone)) cs)
  = filter (fun r => negb (String.eqb (v_phone r) phone)) cs.
Proof.
  induction cs as [|r cs IH]; simpl; [reflexivity|].
  destruct (String.eqb (v_phone r) phone) eqn:E; simpl; [exact IH|].
  unfold code_matches at 1. rewrite E. simpl. rewrite IH. reflexivity.
Qed.

Lemma filter_app_vrow (f : vrow -> bool) (l1 l2 : list vrow) :
  filter f (l1 ++ l2) = (filter f l1 ++ filter f l2)%list.
Proof. induction l1 as [|x l IH]; simpl; [reflexivity|]. destruct (f x); simpl; rewrite IH; reflexivity. Qed.

Lemma code_matches_fresh (phone code : string) (exp t : Z) :
  code_matches phone code t (mkVrow phone code exp false) = (t <? exp).
Proof. unfold code_matches; simpl. rewrite !String.eqb_refl. reflexivity. Qed.

Lemma code_matches_used (phone code : string) (exp t : Z) :
  code_matches phone code t (mkVrow phone code exp true) = false.
Proof. unfold code_matches; simpl. rewrite andb_false_r. reflexivity. Qed.

Lemma consume_after_issue (ext : op -> answer) (w : world) (phone code : string) (t0 t : Z) :
  exec_op ext (ConsumeCode phone code t) (issue_code ext phone code t0 w) =
  if t <? t0 + 5 * 60 * 1000 then
    (ARow (Some (mkVrow phone code (t0 + 5 * 60 * 1000) true)),
     state_after_use w phone code (t0 + 5 * 60 * 1000))
  else (ARow None, issue_code ext phone code t0 w).
Proof.
  unfold issue_code, state_after_use; cbn [exec_op snd w_codes set_codes].
  rewrite filter_app_vrow, filter_code_matches_other_phones. cbn [filter app].
  rewrite code_matches_fresh.
  destruct (t <? t0 + 5 * 60 * 1000) eqn:Et; [|reflexivity].
  rewrite map_app, map_mark_other_phones. cbn [map].
  rewrite code_matches_fresh, Et. reflexivity.
Qed.

Lemma consume_after_use (ext : op -> answer) (w : world) (phone code : string) (exp t : Z) :
  exec_op ext (ConsumeCode phone code t) (state_after_use w phone code exp) =
  (ARow None, state_after_use w phone code exp).
Proof.
  unfold state_after_use at 1; cbn [exec_op w_codes set_codes].
  rewrite filter_app_vrow, filter_code_matches_other_phones.
  cbn [filter app]. rewrite code_matches_used. reflexivity.
Qed.

Lemma consume_seq_after_use (ext : op -> answer) (w : world) (phone code : string)
    (exp : Z) (ts : list Z) :
  consume_seq ext phone code ts (state_after_use w phone code exp) =
  (repeat (ARow None) (length ts), state_after_use w phone code exp).
Proof.
  induction ts as [|t ts IH]; [reflexivity|].
  cbn [consume_seq]. rewrite consume_after_use, IH. reflexivity.
Qed.

(** C1. After a code is issued for a phone, a sequence of consume
    statements with that phone and code succeeds exactly once, at the first
    call, provided it comes before the expiry: that call flips [verified]
    and returns the row; every later call, at any time, matches no row and
    leaves the table unchanged; a call after the expiry matches no row
    either. *)
Theorem consume_exactly_once (ext : op -> answer) (w : world) (phone code : string)
    (t0 t1 : Z) (ts : list Z) :
  t1 < t0 + 5 * 60 * 1000 ->
  exec_op ext (ConsumeCode phone code t1) (issue_code ext phone code t0 w) =
    (ARow (Some (mkVrow phone code (t0 + 5 * 60 * 1000) true)),
     state_after_use w phone code (t0 + 5 * 60 * 1000)) /\
  (forall t, exec_op ext (ConsumeCode phone code t)
               (state_after_use w phone code (t0 + 5 * 60 * 1000)) =
             (ARow None, state_after_use w phone code (t0 + 5 * 60 * 1000))) /\
  consume_seq ext phone code (t1 :: ts) (issue_code ext phone code t0 w) =
    (ARow (Some (mkVrow phone code (t0 + 5 * 60 * 1000) true)) :: repeat (ARow None) (length ts),
     state_after_use w phone code (t0 + 5 * 60 * 1000)) /\
  (forall t, t0 + 5 * 60 * 1000 <= t ->
     exec_op ext (ConsumeCode phone code t) (issue_code ext phone code t0 w) =
     (ARow None, issue_code ext phone code t0 w)).
Proof.
  intros Ht.
  assert (H1 : exec_op ext (ConsumeCode phone code t1) (issue_code ext phone code t0 w) =
    (ARow (Some (mkVrow phone code (t0 + 5 * 60 * 1000) true)),
     state_after_use w phone code (t0 + 5 * 60 * 1000))).
  { rewrite consume_after_issue.
    destruct (Z.ltb_spec t1 (t0 + 5 * 60 * 1000)); [reflexivity|lia]. }
  split; [exact H1|]. split; [|split].
  - intros t. apply consume_after_use.
  - cbn [consume_seq]. rewrite H1, consume_seq_after_use. reflexivity.
  - intros t Hexp. rewrite consume_after_issue.
    destruct (Z.ltb_spec t (t0 + 5 * 60 * 1000)); [lia|reflexivity].
Qed.

Lemma consume_exactly_once_witness :
  0 < 0 + 5 * 60 * 1000 /\
  consume_seq no_ext "+972541234567" "482913" [0; 1000; 400000]
    (issue_code no_ext "+972541234567" "482913" 0 (rl_sample 0)) =
  ([ARow (Some (mkVrow "+972541234567" "482913" (0 + 5 * 60 * 1000) true));
    ARow None; ARow None],
   state_after_use (rl_sample 0) "+972541234567" "482913" (0 + 5 * 60 * 1000)).
Proof.
  split; [lia|].
  exact (proj1 (proj2 (proj2 (consume_exactly_once no_ext (rl_sample 0) "+972541234567"
                  "482913" 0 0 [1000; 400000] ltac:(lia))))).
Defined.

Lemma issue_code_rows (ext : op -> answer) (w : world) (phone code : string) (now : Z) :
  filter (fun r => String.eqb (v_phone r) phone) (w_codes (issue_code ext phone code now w)) =
  [mkVrow phone code (now + 5 * 60 * 1000) false].
Proof.
  unfold issue_code; cbn [exec_op snd w_codes set_codes].
  rewrite filter_app_vrow. cbn [filter v_phone]. rewrite String.eqb_refl.
  induction (w_codes w) as [|r cs IH]; [reflexivity|].
  cbn [filter]. destruct (String.eqb (v_phone r) phone) eqn:E; cbn [negb]; [exact IH|].
  cbn [filter]. rewrite E. exact IH.
Qed.

Lemma consume_superseded (ext : op -> answer) (w : world) (phone c1 c2 : string) (t1 t2 t : Z) :
  c1 <> c2 ->
  exec_op ext (ConsumeCode phone c1 t) (issue_code ext phone c2 t2 (issue_code ext phone c1 t1 w)) =
  (ARow None, issue_code ext phone c2 t2 (issue_code ext phone c1 t1 w)).
Proof.
  intros Hne. unfold issue_code at 1; cbn [exec_op snd w_codes set_codes].
  rewrite filter_app_vrow, filter_code_matches_other_phones. cbn [filter app].
  unfold code_matches at 1; cbn [v_phone v_code].
  rewrite String.eqb_refl.
  destruct (String.eqb_spec c2 c1) as [->|_]; [congruence|]. reflexivity.
Qed.

Lemma local_mobile_not_falsy (p : string) : is_local_mobile p = true -> falsy p = false.
Proof. destruct p; [discriminate|reflexivity]. Qed.

(** A verification request of send-sms issues
    two statements, the delete of every row of the phone and then the
    insert of one unverified row expiring 5 minutes later.  Run one after
    the other they leave exactly that row for the phone, and after a second
    issuance with a different code the first code no longer matches, even
    before its expiry.  Overlapping issuances are treated separately below. *)
Theorem issue_supersedes_sequential :
  (forall random now req,
     is_local_mobile (sr_phone req) = true -> sr_type req = "verification"%string ->
     let code := if falsy (sr_code req) then random else sr_code req in
     exists k, send_sms_handler true random now (JsonOk req) =
       Call (DeleteCodes (sr_phone req)) (fun _ =>
       Call (InsertCode (mkVrow (sr_phone req) code (now + 5 * 60 * 1000) false)) k)) /\
  (forall ext w phone code now,
     filter (fun r => String.eqb (v_phone r) phone) (w_codes (issue_code ext phone code now w)) =
     [mkVrow phone code (now + 5 * 60 * 1000) false]) /\
  (forall ext w phone c1 c2 t1 t2 t, c1 <> c2 ->
     exec_op ext (ConsumeCode phone c1 t) (issue_code ext phone c2 t2 (issue_code ext phone c1 t1 w)) =
     (ARow None, issue_code ext phone c2 t2 (issue_code ext phone c1 t1 w))).
Proof.
  split; [|split; [exact issue_code_rows | exact consume_superseded]].
  intros random now req Hp Ht code.
  unfold send_sms_handler, send_sms_body. cbn [negb from_json bind].
  rewrite (local_mobile_not_falsy _ Hp), Hp. cbn [orb negb].
  rewrite Ht. cbn [String.eqb Ascii.eqb Bool.eqb].
  eexists. reflexivity.
Qed.


(** C5 (code_bug).  Two verification requests for the same phone whose
    statements interleave (delete, delete, insert, insert) both succeed and
    leave two unverified rows; the first, superseded code is still consumed
    successfully within its lifetime. *)
Lemma issue_interleaved_two_rows :
  let ps := [send_sms_handler true "000000" 0 (JsonOk (sms_verification_req "0541234567" "111111"));
             send_sms_handler true "000000" 1000 (JsonOk (sms_verification_req "0541234567" "222222"))] in
  let '(ps', w') := run_sched twilio_ok [0; 1; 0; 1; 0; 1]%nat ps empty_world in
  ps' = [Ret (mkResp 200 (JSmsSent "SM1" "verification"));
         Ret (mkResp 200 (JSmsSent "SM1" "verification"))] /\
  length (filter (fun r => String.eqb (v_phone r) "0541234567") (w_codes w')) = 2%nat /\
  fst (exec_op twilio_ok (ConsumeCode "0541234567" "111111" 2000) w') =
    ARow (Some (mkVrow "0541234567" "111111" 300000 true)).
Proof. vm_compute. repeat split. Qed.

(** ** Slot uniqueness *)

Lemma filter_app_booking (f : booking -> bool) (l1 l2 : list booking) :
  filter f (l1 ++ l2) = (filter f l1 ++ filter f l2)%list.
Proof. induction l1 as [|x l IH]; simpl; [reflexivity|]. destruct (f x); simpl; rewrite IH; reflexivity. Qed.

Lemma cancel_row_slot (id : Z) (b : booking) : slot_of (cancel_row id b) = slot_of b.
Proof. unfold cancel_row. destruct (b_id b =? id); reflexivity. Qed.

Lemma cancel_row_active (id : Z) (b : booking) : active (cancel_row id b) = true -> active b = true.
Proof. unfold cancel_row. destruct (b_id b =? id); [discriminate|auto]. Qed.

Lemma in_active_slots_cancel (id : Z) (bs : list booking) (s : string * string) :
  In s (map slot_of (filter active (map (cancel_row id) bs))) ->
  In s (map slot_of (filter active bs)).
Proof.
  induction bs as [|b bs IH]; simpl; [auto|].
  destruct (active (cancel_row id b)) eqn:E.
  - rewrite (cancel_row_active _ _ E). simpl. rewrite cancel_row_slot. intuition.
  - destruct (active b); simpl; intuition.
Qed.

Lemma slot_unique_cancel (id : Z) (bs : list booking) :
  slot_unique bs -> slot_unique (map (cancel_row id) bs).
Proof.
  unfold slot_unique. induction bs as [|b bs IH]; simpl; [auto|].
  destruct (active (cancel_row id b)) eqn:E.
  - rewrite (cancel_row_active _ _ E). simpl. intros Hn. inversion Hn; subst.
    constructor; [|auto]. rewrite cancel_row_slot.
    intros Hin. apply in_active_slots_cancel in Hin. contradiction.
  - destruct (active b); simpl; intros Hn; [inversion Hn|]; auto.
Qed.

Lemma slot_conflict_false_notin (bs : list booking) (row : booking) :
  active row = true -> slot_conflict bs row = false ->
  ~ In (slot_of row) (map slot_of (filter active bs)).
Proof.
  unfold slot_conflict. intros Ha. rewrite Ha. cbn [andb]. intros Hc Hin.
  apply in_map_iff in Hin as (b & Hs & Hb). apply filter_In in Hb as [Hb Hab].
  assert (existsb (fun b0 => active b0 &&
             same_slot (b_booking_date row) (b_booking_time row) b0) bs = true).
  { apply existsb_exists. exists b. split; [exact Hb|].
    rewrite Hab. unfold slot_of in Hs. injection Hs as Hd Ht. unfold same_slot.
    rewrite Hd, Ht, !String.eqb_refl. reflexivity. }
  congruence.
Qed.

Lemma slot_unique_insert (bs : list booking) (row : booking) :
  slot_unique bs -> slot_conflict bs row = false -> slot_unique (bs ++ [row])%list.
Proof.
  unfold slot_unique. intros Hn Hc. rewrite filter_app_booking, map_app. cbn [filter].
  destruct (active row) eqn:Ea; cbn [map]; [|rewrite app_nil_r; exact Hn].
  apply NoDup_app; [exact Hn| constructor; [intros []|constructor] |].
  intros x Hx [<-|[]]. exact (slot_conflict_false_notin bs row Ea Hc Hx).
Qed.

Lemma exec_op_slot_unique (ext : op -> answer) (o : op) (w : world) :
  slot_unique (w_bookings w) -> slot_unique (w_bookings (snd (exec_op ext o w))).
Proof.
  intros H. destruct o; cbn [exec_op]; try exact H.
  - destruct (filter _ _) as [|r [|r' l]]; exact H.
  - destruct (or_value_plain time); exact H.
  - match goal with |- context [if ?c then _ else _] => destruct c eqn:Ec end.
    + exact H.
    + apply slot_unique_insert; assumption.
  - apply slot_unique_cancel; exact H.
Qed.

Lemma step_prog_slot_unique {A} (ext : op -> answer) (p : prog A) (w : world) :
  slot_unique (w_bookings w) -> slot_unique (w_bookings (snd (step_prog ext p w))).
Proof.
  induction p as [a|m|o k IH|l n IH]; cbn [step_prog]; auto.
  intros H. destruct (exec_op ext o w) as [a w'] eqn:E. cbn [snd].
  change w' with (snd (a, w')). rewrite <- E. apply exec_op_slot_unique; exact H.
Qed.

Lemma run_sched_slot_unique {A} (ext : op -> answer) (sched : list nat) (ps : list (prog A))
    (w : world) :
  slot_unique (w_bookings w) -> slot_unique (w_bookings (snd (run_sched ext sched ps w))).
Proof.
  revert ps w. induction sched as [|i r IH]; intros ps w H; cbn [run_sched]; [exact H|].
  destruct (nth_error ps i) as [p|]; [|apply IH; exact H].
  destruct (step_prog ext p w) as [p' w'] eqn:E. apply IH.
  change w' with (snd (p', w')). rewrite <- E. apply step_prog_slot_unique; exact H.
Qed.

(** C2. The partial unique index keeps at most one non-cancelled booking per
    (booking_date, booking_time): every statement preserves it (inserts are
    refused with 23505 on a clash, cancellations only deactivate rows), so
    it holds after every statement of any interleaving of any requests
    (public and admin booking paths, cancellations); an insert into an
    occupied slot is refused by the database itself, whatever checks the
    handler made before. *)
Theorem active_slot_unique_invariant :
  (forall ext o w, slot_unique (w_bookings w) ->
     slot_unique (w_bookings (snd (exec_op ext o w)))) /\
  (forall ext sched (ps : list (prog response)) w, slot_unique (w_bookings w) ->
     slot_unique (w_bookings (snd (run_sched ext sched ps w)))) /\
  (forall ext w name phone date time b,
     In b (w_bookings w) -> active b = true -> same_slot date time b = true ->
     exec_op ext (InsertBooking name phone date time "confirmed") w =
     (AErr "23505" "duplicate key value violates unique constraint idx_unique_active_booking_slot", w)).
Proof.
  split; [exact exec_op_slot_unique|]. split; [intros; apply run_sched_slot_unique; assumption|].
  intros ext w name phone date time b Hin Ha Hs. cbn [exec_op].
  unfold slot_conflict; cbn [active b_status same_slot b_booking_date b_booking_time].
  replace (existsb _ (w_bookings w)) with true; [reflexivity|].
  symmetry. apply existsb_exists. exists b. rewrite Ha, Hs. auto.
Qed.

Lemma active_slot_unique_invariant_witness :
  slot_unique (w_bookings (snd (run_sched admin_ext [0; 1; 0; 1; 0; 1; 0; 1]%nat
     [admin_create_booking_v1_handler false (Some "Bearer t") (JsonOk admin_sample_req);
      admin_create_booking_v1_handler false (Some "Bearer t") (JsonOk admin_sample_req)]
     empty_world))).
Proof.
  apply (proj1 (proj2 active_slot_unique_invariant)). constructor.
Defined.

(** ** Conflicts on insert *)

Ltac split_paths :=
  repeat match goal with
         | |- _ /\ _ => split
         | |- forall _, _ => intro
         | |- True => exact I
         | |- Ret _ = Ret _ => reflexivity
         | |- context [if ?c then _ else _] => destruct c
         | |- context [match ?a with _ => _ end] => destruct a
         | _ => progress cbn
         end.

Lemma create_booking_paths (today now : Z) (j : json booking_req) :
  insert_conflict_reply SLOT_UNAVAILABLE (create_booking_handler today now j) /\
  taken_precheck_reply SLOT_UNAVAILABLE (create_booking_handler today now j).
Proof.
  unfold create_booking_handler, create_booking_body.
  destruct j as [req|m]; [|split; exact I].
  cbn [from_json bind].
  repeat match goal with
         | |- context [if ?c then _ else _] => destruct c
         | |- context [match normalizePhone ?p with _ => _ end] => destruct (normalizePhone p)
         end;
  split_paths.
Qed.

Lemma admin_create_booking_paths (today : Z) (auth : option string) (j : json admin_req) :
  insert_conflict_reply SLOT_UNAVAILABLE (admin_create_booking_handler today auth j) /\
  taken_precheck_reply SLOT_UNAVAILABLE (admin_create_booking_handler today auth j).
Proof.
  unfold admin_create_booking_handler, admin_create_booking_body, admin_gate.
  destruct auth as [h|]; [|split; exact I].
  destruct j as [req|m]; cbn [from_json bind];
  repeat match goal with
         | |- context [if ?c then _ else _] => destruct c
         | |- context [match normalizePhone ?p with _ => _ end] => destruct (normalizePhone p)
         end;
  split_paths.
Qed.

(** Two current admin requests for one slot, interleaved so that both pass
    the pre-checks: the loser gets the slot-taken reply. *)
Example admin_race_slot_unavailable :
  fst (run_sched admin_ext [0; 1; 0; 1; 0; 1; 0; 1; 0; 1; 0; 1]%nat
         [admin_create_booking_handler sample_today (Some "Bearer t") (JsonOk admin_sample_req);
          admin_create_booking_handler sample_today (Some "Bearer t") (JsonOk admin_sample_req)]
         empty_world) =
  [Ret (mkResp 200 (JSuccessBooking (mkBooking 1 "Dana" "+972541234567" "2026-10-20" "10:00" "confirmed")));
   Ret SLOT_UNAVAILABLE].
Proof. vm_compute. reflexivity. Qed.

(** C3 (code_bug). The earlier admin-create-booking (part_001) turns the
    insert's 23505 into [throw new Error("Failed to create booking")], so an
    administrator booking an occupied slot gets a 500 internal error; the
    current public and admin handlers answer the same slot-taken reply as
    their pre-check. *)
Theorem admin_v1_conflict_internal_error :
  fst (fst (run admin_ext
       (admin_create_booking_v1_handler false (Some "Bearer t") (JsonOk admin_sample_req))
       occupied_world)) = Done (mkResp 500 (JFailure "Failed to create booking")) /\
  ~ insert_conflict_reply SLOT_UNAVAILABLE
      (admin_create_booking_v1_handler false (Some "Bearer t") (JsonOk admin_sample_req)) /\
  (forall today now j, insert_conflict_reply SLOT_UNAVAILABLE (create_booking_handler today now j) /\
                       taken_precheck_reply SLOT_UNAVAILABLE (create_booking_handler today now j)) /\
  (forall today auth j,
     insert_conflict_reply SLOT_UNAVAILABLE (admin_create_booking_handler today auth j) /\
     taken_precheck_reply SLOT_UNAVAILABLE (admin_create_booking_handler today auth j)).
Proof.
  split; [vm_compute; reflexivity|]. split.
  - cbn. intros [_ H]. destruct (H (AUser (Some "u1"))) as [_ H2].
    destruct (H2 (ABool true)) as [H4 _].
    specialize (H4 "dup"). cbn in H4. discriminate H4.
  - split; [exact create_booking_paths | exact admin_create_booking_paths].
Qed.

(** ** Error sanitization *)

Lemma sanitize_in_range (m : string) (t : list (string * string)) :
  In (sanitize_in m t) (GENERIC_ERROR :: map snd t).
Proof.
  induction t as [|[k v] t IH]; cbn; [left; reflexivity|].
  destruct (contains k m); [right; left; reflexivity|].
  destruct IH as [H|H]; [left; exact H | right; right; exact H].
Qed.

Lemma sanitizeError_range (m : string) : In (sanitizeError m) safe_outputs.
Proof. exact (sanitize_in_range m SAFE_ERROR_MESSAGES). Qed.

(** C9 (code_bug). The current handlers pass every caught message through
    [sanitizeError], whose result always lies in the safe table or is the
    generic fallback; but the send-sms handler (part_002) answers a refused
    Twilio request with Twilio's own error text, and the earlier
    admin-create-booking (part_001) answers a malformed body with the raw
    parser message: neither reply is a sanitized message. *)
Theorem unsanitized_error_replies :
  (forall m, In (sanitizeError m) safe_outputs) /\
  fst (fst (run twilio_refuses
       (send_sms_handler true "123456" 0 (JsonOk (sms_verification_req "0541234567" "")))
       empty_world)) = Done (mkResp 500 (JError "Authenticate")) /\
  fst (fst (run admin_ext
       (admin_create_booking_v1_handler true (Some "Bearer t")
          (JsonError "Unexpected end of JSON input"))
       empty_world)) = Done (mkResp 500 (JFailure "Unexpected end of JSON input")) /\
  ~ In "Authenticate" safe_outputs /\
  ~ In "Unexpected end of JSON input" safe_outputs.
Proof.
  split; [exact sanitizeError_range|].
  split; [vm_compute; reflexivity|].
  split; [vm_compute; reflexivity|].
  split; cbn; intuition discriminate.
Qed.

(** ** sms-webhook cancellation *)

Lemma run_cancel_loop_found (ext : op -> answer) (h : string -> response) (now : Z)
    (pre post : list booking) (b : booking) (w : world) :
  forallb (fun x => negb (eligible now x)) pre = true ->
  eligible now b = true ->
  run ext (catch h (cancel_loop now (pre ++ b :: post))) w =
  (Done (twiml (cancelled_text b)), set_bookings (map (cancel_row (b_id b)) (w_bookings w)) w, []).
Proof.
  intros Hpre Hb. induction pre as [|x pre IH].
  - cbn [app cancel_loop]. unfold eligible in Hb.
    destruct (booking_datetime b) as [t|]; [|discriminate].
    rewrite Hb. reflexivity.
  - cbn [forallb] in Hpre. apply andb_prop in Hpre as [Hx Hpre].
    cbn [app cancel_loop]. unfold eligible in Hx.
    destruct (booking_datetime x) as [t|]; [|exact (IH Hpre)].
    destruct (THREE_HOURS_MS <=? t - now); [discriminate|exact (IH Hpre)].
Qed.

Lemma run_cancel_loop_none (ext : op -> answer) (h : string -> response) (now : Z)
    (bs : list booking) (w : world) :
  forallb (fun x => negb (eligible now x)) bs = true ->
  run ext (catch h (cancel_loop now bs)) w = (Done (twiml MSG_NOT_CANCELLABLE), w, []).
Proof.
  intros H. induction bs as [|x bs IH]; [reflexivity|].
  cbn [forallb] in H. apply andb_prop in H as [Hx H].
  cbn [cancel_loop]. unfold eligible in Hx.
  destruct (booking_datetime x) as [t|]; [|exact (IH H)].
  destruct (THREE_HOURS_MS <=? t - now); [discriminate|exact (IH H)].
Qed.

Lemma booking_eqb_refl (b : booking) : booking_eqb b b = true.
Proof.
  destruct b; unfold booking_eqb; cbn.
  rewrite Z.eqb_refl, !String.eqb_refl. reflexivity.
Qed.

Lemma changed_rows_cancel (id : Z) (bs : list booking) :
  NoDup (map b_id bs) -> (changed_rows bs (map (cancel_row id) bs) <= 1)%nat.
Proof.
  induction bs as [|x bs IH]; intros Hnd; cbn; [lia|].
  inversion Hnd as [|? ? Hnin Hnd']; subst.
  unfold cancel_row at 1. destruct (b_id x =? id) eqn:E.
  - apply Z.eqb_eq in E.
    assert (Hsame : map (cancel_row id) bs = bs).
    { clear IH Hnd Hnd'. induction bs as [|y bs IHb]; [reflexivity|].
      cbn. unfold cancel_row at 1.
      destruct (b_id y =? id) eqn:Ey.
      - apply Z.eqb_eq in Ey. exfalso. apply Hnin. left. congruence.
      - f_equal. apply IHb. intros Hin. apply Hnin. right. exact Hin. }
    rewrite Hsame.
    assert (Hz : changed_rows bs bs = 0%nat).
    { clear. induction bs as [|y bs IHb]; [reflexivity|]. cbn. rewrite booking_eqb_refl, IHb. reflexivity. }
    rewrite Hz. destruct (booking_eqb x _); lia.
  - rewrite booking_eqb_refl. specialize (IH Hnd'). lia.
Qed.

(** C7. An inbound "0" from [from] fetches the phone's non-cancelled
    bookings ordered by (date, time).  If [b] is the first of them that is
    eligible (its date-time parses and is at least three hours ahead;
    unparsable entries are skipped), the reply confirms the cancellation of
    [b] and the only update is the one by [b]'s id; if none is eligible the
    reply is "not cancellable" and nothing changes.  With distinct booking
    ids the update changes at most one row. *)
Theorem webhook_cancels_first_eligible (ext : op -> answer) (now : Z) (from : string) (w : world)
    (Hfrom : falsy from = false) :
  let bs := phone_bookings (webhook_toLocalPhone from) w in
  (forall pre b post, bs = (pre ++ b :: post)%list ->
     forallb (fun x => negb (eligible now x)) pre = true -> eligible now b = true ->
     run ext (sms_webhook_handler now (cancel_form from)) w =
     (Done (twiml (cancelled_text b)), set_bookings (map (cancel_row (b_id b)) (w_bookings w)) w, []) /\
     (NoDup (map b_id (w_bookings w)) ->
      (changed_rows (w_bookings w) (map (cancel_row (b_id b)) (w_bookings w)) <= 1)%nat)) /\
  (forallb (fun x => negb (eligible now x)) bs = true ->
     run ext (sms_webhook_handler now (cancel_form from)) w = (Done (twiml MSG_NOT_CANCELLABLE), w, [])).
Proof.
  intros bs.
  assert (Hrun : run ext (sms_webhook_handler now (cancel_form from)) w =
                 run ext (catch (fun _ => twiml MSG_WEBHOOK_ERROR) (cancel_loop now bs)) w).
  { unfold sms_webhook_handler, sms_webhook_body, cancel_form. cbn [from_json bind].
    rewrite Hfrom. cbn [orb falsy String.eqb]. cbn [js_trim]. reflexivity. }
  split.
  - intros pre b post Hbs Hpre Hb. rewrite Hrun, Hbs. split.
    + exact (run_cancel_loop_found ext _ now pre post b w Hpre Hb).
    + apply changed_rows_cancel.
  - intros H. rewrite Hrun. exact (run_cancel_loop_none ext _ now bs w H).
Qed.

(** The loop as the code runs it on an hour-24 time: "2026-10-20T24:00:00"
    is midnight starting 2026-10-21, fifteen hours after the request, and
    the booking is ordered before the 10:00 booking of 2026-10-21, so it is
    the one cancelled. *)
Example webhook_hour_24_ex :
  booking_datetime booking_24 = Some (days_from_civil 2026 10 21 * 86400000) /\
  run no_ext (sms_webhook_handler webhook_now (cancel_form "+972541234567")) webhook_world_24 =
  (Done (twiml (cancelled_text booking_24)),
   set_bookings (map (cancel_row (b_id booking_24)) (w_bookings webhook_world_24)) webhook_world_24, []).
Proof. split; vm_compute; reflexivity. Qed.

(** [trim] removes a leading no-break space, so the body [nbsp_zero] is
    the cancellation command. *)
Example webhook_nbsp_zero_ex :
  js_trim nbsp_zero = "0" /\
  run no_ext (sms_webhook_handler webhook_now (JsonOk (nbsp_zero, "+972541234567"))) webhook_world =
  (Done (twiml (cancelled_text booking_14)), webhook_world_after, []).
Proof. split; vm_compute; reflexivity. Qed.


(* ================================================================= *)
(** ** Further properties of the code *)

(** *** CORS *)

(** The allowed origin is always one of [ALLOWED_ORIGINS]; a listed
    origin is echoed back, and an unlisted or missing origin gets the first
    listed one, the production origin "https://mea-barber.com". *)
Theorem cors_origin_allowed (is_staging : bool) (origin : option string) :
  exists a, header "Access-Control-Allow-Origin" (getCorsHeaders is_staging origin) = Some a /\
            In a (ALLOWED_ORIGINS is_staging) /\
            (forall o, origin = Some o -> In o (ALLOWED_ORIGINS is_staging) -> a = o) /\
            match origin with
            | Some o => if existsb (String.eqb o) (ALLOWED_ORIGINS is_staging)
                        then a = o else a = "https://mea-barber.com"
            | None => a = "https://mea-barber.com"
            end.
Proof.
  assert (Hhd : In (hd "" (ALLOWED_ORIGINS is_staging)) (ALLOWED_ORIGINS is_staging))
    by (left; reflexivity).
  assert (Hfirst : hd "" (ALLOWED_ORIGINS is_staging) = "https://mea-barber.com")
    by (destruct is_staging; reflexivity).
  assert (Hne : forall o, existsb (String.eqb o) (ALLOWED_ORIGINS is_staging) = true ->
                          falsy o = false).
  { intros o E. apply existsb_exists in E as [x [Hx Ex]].
    apply String.eqb_eq in Ex. subst x.
    destruct is_staging; cbn in Hx; unfold falsy;
      repeat destruct Hx as [<-|Hx]; try reflexivity; contradiction. }
  unfold getCorsHeaders. cbn [header String.eqb].
  destruct origin as [o|].
  - destruct (existsb (String.eqb o) (ALLOWED_ORIGINS is_staging)) eqn:E.
    + rewrite (Hne o E). cbn [negb andb].
      exists o. split; [reflexivity|]. split; [|split; [|reflexivity]].
      * apply existsb_exists in E as [x [Hx Ex]]. apply String.eqb_eq in Ex. subst x. exact Hx.
      * intros o' Ho' _. injection Ho' as <-. reflexivity.
    + rewrite andb_false_r.
      exists (hd "" (ALLOWED_ORIGINS is_staging)). split; [reflexivity|].
      split; [exact Hhd|]. split; [|exact Hfirst].
      intros o' Ho' Hin. injection Ho' as <-. exfalso.
      assert (Hex : existsb (String.eqb o) (ALLOWED_ORIGINS is_staging) = true).
      { apply existsb_exists. exists o. split; [exact Hin | apply String.eqb_refl]. }
      congruence.
  - exists (hd "" (ALLOWED_ORIGINS is_staging)). split; [reflexivity|].
    split; [exact Hhd|]. split; [discriminate|exact Hfirst].
Qed.

Example cors_origin_examples :
  header "Access-Control-Allow-Origin" (getCorsHeaders false (Some "http://localhost:5173")) =
    Some "https://mea-barber.com" /\
  header "Access-Control-Allow-Origin" (getCorsHeaders true (Some "http://localhost:5173")) =
    Some "http://localhost:5173".
Proof. split; reflexivity. Qed.

(** *** Phone validation and masking *)

Lemma starts_with_app (p s : string) : starts_with p s = true -> exists r, s = p ++ r.
Proof.
  revert s. induction p as [|a p IH]; intros s H.
  - exists s. reflexivity.
  - destruct s as [|b s]; [discriminate|]. cbn in H. apply andb_prop in H as [Hab H].
    apply Ascii.eqb_eq in Hab. subst b. destruct (IH s H) as [r ->]. exists r. reflexivity.
Qed.

(** [isValidIsraeliPhone p] holds exactly when the local form produced by
    [toLocalPhone p] passes send-sms's [/^05\d{8}$/] check. *)
Theorem isValidIsraeliPhone_local_mobile (p : string) :
  isValidIsraeliPhone p = true <-> exists l, toLocalPhone p = Some l /\ is_local_mobile l = true.
Proof.
  unfold isValidIsraeliPhone, toLocalPhone.
  destruct (normalizePhone p) as [n|] eqn:E.
  - destruct (normalizePhone_shape p n E) as [_ Hs].
    destruct (starts_with_app _ _ Hs) as [r ->].
    replace (str_drop 4 ("+972" ++ r)) with r by reflexivity.
    replace (str_drop 5 ("+972" ++ r)) with (str_drop 1 r) by reflexivity.
    assert (Heq : starts_with "+9725" ("+972" ++ r) && digits_exactly 8 (str_drop 1 r) =
                  is_local_mobile ("0" ++ r)).
    { destruct r as [|c r]; [reflexivity|].
      unfold is_local_mobile, digits_exactly. cbn [str_drop append starts_with String.length all_chars].
      destruct (("5" =? c)%char) eqn:Ec.
      - apply Ascii.eqb_eq in Ec. subst c. reflexivity.
      - cbn. rewrite ?andb_false_r. reflexivity. }
    rewrite Heq. split.
    + intros H. exists ("0" ++ r). split; [reflexivity | exact H].
    + intros [l [Hl H]]. injection Hl as <-. exact H.
  - split; [discriminate|]. intros [l [Hl _]]. discriminate.
Qed.

Lemma count_chars_app (f : ascii -> bool) (s t : string) :
  count_chars f (s ++ t) = (count_chars f s + count_chars f t)%nat.
Proof. induction s as [|c s IH]; cbn; [reflexivity|]. rewrite IH. lia. Qed.

Lemma count_chars_length (f : ascii -> bool) (s : string) :
  (count_chars f s <= String.length s)%nat.
Proof. induction s as [|c s IH]; cbn; [lia|]. destruct (f c); lia. Qed.

Lemma length_substring_0 (n : nat) (s : string) : (String.length (substring 0 n s) <= n)%nat.
Proof.
  revert s. induction n as [|n IH]; intros s; [destruct s; cbn; lia|].
  destruct s as [|c s]; cbn [substring String.length]; [lia|]. specialize (IH s). lia.
Qed.

Lemma length_str_drop (n : nat) (s : string) :
  String.length (str_drop n s) = (String.length s - n)%nat.
Proof.
  revert s. induction n as [|n IH]; intros s; cbn; [lia|].
  destruct s as [|c s]; cbn; [reflexivity | apply IH].
Qed.

(** A masked phone shows at most six digits, and masking a normalized number
    gives the same text as masking what it was normalized from. *)
Theorem maskPhone_hides_digits (p : string) :
  (count_chars is_digit (maskPhone p) <= 6)%nat /\
  (forall n, normalizePhone p = Some n -> maskPhone n = maskPhone p).
Proof.
  split.
  - unfold maskPhone. destruct (toLocalPhone p) as [l|]; [|apply Nat.leb_le; reflexivity].
    rewrite !count_chars_app. cbn [count_chars is_digit nat_of_ascii].
    pose proof (count_chars_length is_digit (substring 0 2 l)).
    pose proof (length_substring_0 2 l).
    pose proof (count_chars_length is_digit (slice_last 4 l)).
    unfold slice_last in *. rewrite length_str_drop in H1.
    replace (is_digit "*") with false by reflexivity. lia.
  - intros n H. unfold maskPhone, toLocalPhone. rewrite (normalizePhone_idem p n H), H.
    reflexivity.
Qed.

Example maskPhone_examples :
  maskPhone "+972541234567" = "05***4567" /\ maskPhone "12345" = "***masked***".
Proof. split; reflexivity. Qed.

(** *** Test account *)

(** A test account exists only in staging, only when [TEST_PHONE] is set,
    and only for a phone that normalizes to the same number as [TEST_PHONE]. *)
Theorem isTestAccount_only_configured (is_staging : bool) (env phone : string) :
  isTestAccount is_staging env phone = true ->
  is_staging = true /\ falsy env = false /\
  exists n, normalizePhone phone = Some n /\ normalizePhone env = Some n.
Proof.
  unfold isTestAccount. destruct is_staging; [|discriminate]. cbn [negb].
  destruct (normalizePhone phone) as [n|] eqn:En; [|discriminate].
  destruct (falsy env) eqn:Ef.
  - intros H. apply String.eqb_eq in H. subst n.
    destruct (normalizePhone_shape phone "" En) as [_ Hs]. discriminate Hs.
  - destruct (normalizePhone env) as [t|]; [|discriminate].
    intros H. apply String.eqb_eq in H. subst t.
    repeat split. exists n. split; reflexivity.
Qed.

Lemma isTestAccount_only_configured_witness :
  isTestAccount true "0541234567" "+972 54-123-4567" = true /\
  true = true /\ falsy "0541234567" = false /\
  exists n, normalizePhone "+972 54-123-4567" = Some n /\ normalizePhone "0541234567" = Some n.
Proof.
  split; [reflexivity|].
  apply (isTestAccount_only_configured true "0541234567" "+972 54-123-4567"). reflexivity.
Defined.

(** *** Rate-limit clean-up *)

Lemma filter_filter_sub {X} (f g : X -> bool) (l : list X) :
  (forall x, f x = true -> g x = true) -> filter f (filter g l) = filter f l.
Proof.
  intros H. induction l as [|x l IH]; cbn; [reflexivity|].
  destruct (g x) eqn:Eg; cbn.
  - destruct (f x); [f_equal|]; exact IH.
  - destruct (f x) eqn:Ef; [rewrite (H x Ef) in Eg; discriminate | exact IH].
Qed.

(** Running [cleanup_old_rate_limits] at [tc] never changes the answer of
    [check_rate_limit] at a later time [t] for a window of at most 60 minutes
    (all configured windows are): it only deletes rows no such check counts. *)
Theorem cleanup_preserves_checks (rs : list rl_row) (tc t : Z) (ident action : string)
    (max_attempts window_minutes : Z) :
  tc <= t -> window_minutes <= 60 ->
  check_rate_limit (cleanup_old_rate_limits tc rs) ident action max_attempts window_minutes t =
  check_rate_limit rs ident action max_attempts window_minutes t.
Proof.
  intros Ht Hw. unfold check_rate_limit, cleanup_old_rate_limits.
  rewrite filter_filter_sub; [reflexivity|].
  intros r Hr. unfold rl_in_window in Hr. apply andb_prop in Hr as [_ Hr].
  apply Z.ltb_lt in Hr. apply negb_true_iff, Z.ltb_ge. nia.
Qed.

Lemma cleanup_preserves_checks_witness :
  0 <= 3600000 /\ 60 <= 60 /\
  check_rate_limit (cleanup_old_rate_limits 0 (w_rate (rl_sample 0))) "+972541234567" "sms_send" 3 60 3600000 =
  check_rate_limit (w_rate (rl_sample 0)) "+972541234567" "sms_send" 3 60 3600000.
Proof.
  split; [lia|]. split; [lia|].
  apply cleanup_preserves_checks; lia.
Defined.

Lemma maskPhone_hides_digits_witness :
  (count_chars is_digit (maskPhone "0541234567") <= 6)%nat /\
  normalizePhone "0541234567" = Some "+972541234567" /\
  maskPhone "+972541234567" = maskPhone "0541234567".
Proof.
  split; [apply (proj1 (maskPhone_hides_digits "0541234567"))|].
  split; [reflexivity|].
  apply (proj2 (maskPhone_hides_digits "0541234567")). reflexivity.
Defined.

(* ----------------------------------------------------------------- *)
(** *** Phone formats across the functions *)

(** The webhook's lookup key is never a normalized phone: it starts with
    [0] when [From] starts with [+972], and is [From] itself otherwise. *)
Lemma normalized_not_webhook_local (p n from : string) :
  normalizePhone p = Some n -> n <> webhook_toLocalPhone from.
Proof.
  intros H. destruct (normalizePhone_shape p n H) as [_ Hs].
  unfold webhook_toLocalPhone. destruct (starts_with "+972" from) eqn:Ef.
  - destruct (starts_with_app _ _ Hs) as [r ->]. discriminate.
  - intros ->. rewrite Hs in Ef. discriminate.
Qed.

(** Bookings are stored with a normalized [+972] phone by create-booking and
    admin-create-booking. When every stored booking has such a phone, a
    ["0"] SMS from any sender finds no booking: the webhook answers
    "not cancellable" and leaves the store unchanged. *)
Theorem webhook_misses_normalized_bookings (ext : op -> answer) (now : Z) (from : string) (w : world) :
  falsy from = false ->
  (forall b, In b (w_bookings w) -> exists p, normalizePhone p = Some (b_customer_phone b)) ->
  run ext (sms_webhook_handler now (cancel_form from)) w = (Done (twiml MSG_NOT_CANCELLABLE), w, []).
Proof.
  intros Hfrom Hall.
  assert (Hnil : filter (fun b => String.eqb (b_customer_phone b) (webhook_toLocalPhone from) && active b)
                        (w_bookings w) = []).
  { induction (w_bookings w) as [|b bs IH]; [reflexivity|]. cbn.
    destruct (Hall b (or_introl eq_refl)) as [p Hp].
    destruct (String.eqb_spec (b_customer_phone b) (webhook_toLocalPhone from)) as [E|_].
    - exfalso. exact (normalized_not_webhook_local p _ from Hp E).
    - cbn. apply IH. intros b' Hb'. apply Hall. right. exact Hb'. }
  unfold sms_webhook_handler, sms_webhook_body, cancel_form. cbn [from_json bind].
  rewrite Hfrom. cbn [orb falsy String.eqb js_trim].
  replace (js_trim "0" =? "0")%string with true by reflexivity.
  cbn [catch run exec_op]. rewrite Hnil. reflexivity.
Qed.


Lemma run_leaf_world {A} (ext : op -> answer) (h : string -> A) (p : prog A) (w : world) :
  match p with Ret _ | Throw _ => True | _ => False end ->
  snd (fst (run ext (catch h p) w)) = w.
Proof. destruct p; cbn; tauto. Qed.

(** Whatever Twilio answers, the send-sms handler ends without a further call. *)
Ltac twilio_leaf :=
  match goal with
  | |- context [?e (TwilioSend ?x ?y)] => destruct (e (TwilioSend x y)) as [| | | | | | |[] sid [m|]|]
  end; cbn; try destruct (falsy _); exact I.

(** send-sms stores a verification code under the local [05...] phone it
    received, while verify-code and create-booking look codes up under the
    normalized [+972...] phone. No run of send-sms changes the codes that
    such a lookup matches. *)
Theorem send_sms_never_issues_consumable (ext : op -> answer) (tc : bool) (rc : string) (now : Z)
    (j : json sms_req) (w : world) (p np c : string) (t : Z) :
  normalizePhone p = Some np ->
  filter (code_matches np c t) (w_codes (snd (fst (run ext (send_sms_handler tc rc now j) w)))) =
  filter (code_matches np c t) (w_codes w).
Proof.
  intros Hn. unfold send_sms_handler, send_sms_body.
  destruct tc; cbn [negb]; [|reflexivity].
  destruct j as [req|m]; cbn [from_json bind]; [|reflexivity].
  destruct (falsy (sr_phone req) || negb (is_local_mobile (sr_phone req))) eqn:Ev; [reflexivity|].
  apply orb_false_elim in Ev as [_ Ev]. apply negb_false_iff in Ev.
  destruct (String.eqb (sr_type req) "verification").
  - cbn [catch run exec_op].
    rewrite run_leaf_world; [|twilio_leaf].
    cbn [w_codes set_codes]. rewrite filter_app. cbn [filter].
    assert (Hne : forall r, v_phone r = sr_phone req -> code_matches np c t r = false).
    { intros r Hr. unfold code_matches.
      destruct (String.eqb_spec (v_phone r) np) as [E|_]; [|reflexivity].
      exfalso. destruct (normalizePhone_shape p np Hn) as [_ Hs].
      unfold is_local_mobile in Ev. apply andb_prop in Ev as [E5 _].
      destruct (starts_with_app _ _ Hs) as [r1 Hr1]. destruct (starts_with_app _ _ E5) as [r2 Hr2].
      rewrite Hr, Hr2 in E. rewrite Hr1 in E. discriminate. }
    rewrite Hne by reflexivity. rewrite app_nil_r.
    apply filter_filter_sub. intros r Hr. apply negb_true_iff.
    destruct (String.eqb_spec (v_phone r) (sr_phone req)) as [E|_]; [|reflexivity].
    rewrite (Hne r E) in Hr. discriminate.
  - repeat match goal with |- context [if ?b then _ else _] => destruct b end;
    try reflexivity; cbn [catch run exec_op]; rewrite run_leaf_world; first [reflexivity|twilio_leaf].
Qed.


(* ----------------------------------------------------------------- *)
(** *** send-sms *)

(** Only a verification request writes to the store; and with Twilio
    configured a phone that is not a local mobile number ([05] and 8 digits)
    is refused with a 500 reply before anything happens. *)
Theorem send_sms_storage_effect (ext : op -> answer) (tc : bool) (rc : string) (now : Z)
    (req : sms_req) (w : world) :
  (sr_type req <> "verification" ->
   snd (fst (run ext (send_sms_handler tc rc now (JsonOk req)) w)) = w) /\
  (tc = true -> is_local_mobile (sr_phone req) = false ->
   run ext (send_sms_handler tc rc now (JsonOk req)) w =
   (Done (mkResp 500 (JError "Invalid phone number format")), w, [])).
Proof.
  unfold send_sms_handler, send_sms_body. split.
  - intros Ht. destruct tc; cbn [negb]; [|reflexivity]. cbn [from_json bind].
    destruct (falsy (sr_phone req) || negb (is_local_mobile (sr_phone req))); [reflexivity|].
    destruct (String.eqb_spec (sr_type req) "verification"); [contradiction|].
    repeat match goal with |- context [if ?b then _ else _] => destruct b end;
    try reflexivity; cbn [catch run exec_op]; rewrite run_leaf_world; first [reflexivity|twilio_leaf].
  - intros -> Hm. cbn [negb from_json bind]. rewrite Hm, orb_true_r. reflexivity.
Qed.


(* ----------------------------------------------------------------- *)
(** *** verify-code *)

Lemma normalizePhone_nonempty (p n : string) : normalizePhone p = Some n -> falsy p = false.
Proof. destruct p; [discriminate|reflexivity]. Qed.

Lemma digits_exactly_nonempty (n : nat) (s : string) :
  digits_exactly (S n) s = true -> falsy s = false.
Proof. destruct s; [discriminate|reflexivity]. Qed.

(** Runs verify-code on a well-formed request up to the first rate check. *)
Ltac verify_prefix Hn Hc :=
  let Hp := fresh "Hp" in let Hcf := fresh "Hcf" in
  assert (Hp : falsy _ = false) by exact (normalizePhone_nonempty _ _ Hn);
  assert (Hcf : falsy _ = false) by exact (digits_exactly_nonempty _ _ Hc);
  unfold verify_code_handler, verify_code_body; cbn [from_json bind vr_phone vr_code];
  rewrite Hp, Hcf, Hc, Hn; cbn [orb negb];
  unfold checkRateLimit, recordRateLimit;
  replace (lookup_config "verify_attempt" RATE_LIMITS) with (Some (10, 15)) by reflexivity;
  replace (lookup_config "verify_fail" RATE_LIMITS) with (Some (5, 15)) by reflexivity;
  cbn [bind catch run exec_op fst snd].

(** For a well-formed request, verify-code refuses with 429 and leaves the
    store unchanged when the phone has 10 or more attempts in the last 15
    minutes, or fewer attempts but 5 or more failures in that window. *)
Theorem verify_code_gate (ext : op -> answer) (now : Z) (w : world) (p c np : string) :
  normalizePhone p = Some np -> digits_exactly 6 c = true ->
  (10 <= rl_count (w_rate w) np "verify_attempt" 15 now ->
   run ext (verify_code_handler now (JsonOk (mkVerifyReq p c))) w =
   (Done (mkResp 429 (JFailure MSG_RATE_LIMITED)), w, [])) /\
  (rl_count (w_rate w) np "verify_attempt" 15 now < 10 ->
   5 <= rl_count (w_rate w) np "verify_fail" 15 now ->
   run ext (verify_code_handler now (JsonOk (mkVerifyReq p c))) w =
   (Done (mkResp 429 (JFailure MSG_LOCKED)), w, [])).
Proof.
  intros Hn Hc. verify_prefix Hn Hc. unfold rl_count. split.
  - intros H. replace (check_rate_limit (w_rate w) np "verify_attempt" 10 15 now) with false
      by (symmetry; apply Z.ltb_ge; exact H).
    reflexivity.
  - intros H1 H2. replace (check_rate_limit (w_rate w) np "verify_attempt" 10 15 now) with true
      by (symmetry; apply Z.ltb_lt; exact H1).
    cbn [negb catch run exec_op bind].
    replace (check_rate_limit (w_rate w) np "verify_fail" 5 15 now) with false
      by (symmetry; apply Z.ltb_ge; exact H2).
    reflexivity.
Qed.

Lemma verify_code_gate_witness :
  normalizePhone "0541234567" = Some "+972541234567" /\ digits_exactly 6 "123456" = true /\
  10 <= rl_count (w_rate (rate_world "verify_attempt" 10)) "+972541234567" "verify_attempt" 15 0 /\
  run no_ext (verify_code_handler 0 (JsonOk (mkVerifyReq "0541234567" "123456")))
    (rate_world "verify_attempt" 10) =
  (Done (mkResp 429 (JFailure MSG_RATE_LIMITED)), rate_world "verify_attempt" 10, []) /\
  rl_count (w_rate (rate_world "verify_fail" 5)) "+972541234567" "verify_attempt" 15 0 < 10 /\
  5 <= rl_count (w_rate (rate_world "verify_fail" 5)) "+972541234567" "verify_fail" 15 0 /\
  run no_ext (verify_code_handler 0 (JsonOk (mkVerifyReq "0541234567" "123456")))
    (rate_world "verify_fail" 5) =
  (Done (mkResp 429 (JFailure MSG_LOCKED)), rate_world "verify_fail" 5, []).
Proof.
  split; [reflexivity|]. split; [reflexivity|].
  split; [apply Z.leb_le; vm_compute; reflexivity|].
  split.
  { apply (proj1 (verify_code_gate no_ext 0 _ "0541234567" "123456" _ eq_refl eq_refl)).
    apply Z.leb_le; vm_compute; reflexivity. }
  split; [apply Z.ltb_lt; vm_compute; reflexivity|].
  split; [apply Z.leb_le; vm_compute; reflexivity|].
  apply (proj2 (verify_code_gate no_ext 0 _ "0541234567" "123456" _ eq_refl eq_refl)).
  - apply Z.ltb_lt; vm_compute; reflexivity.
  - apply Z.leb_le; vm_compute; reflexivity.
Defined.

(** Past both rate checks, verify-code records the attempt. A code that
    does not match (wrong, expired or already used) is answered with 200 and
    [MSG_INVALID_CODE] and also records a failure; a single matching code is
    marked as verified and answered with success. *)
Theorem verify_code_outcome (ext : op -> answer) (now : Z) (w : world) (p c np : string) :
  normalizePhone p = Some np -> digits_exactly 6 c = true ->
  rl_count (w_rate w) np "verify_attempt" 15 now < 10 ->
  rl_count (w_rate w) np "verify_fail" 15 now < 5 ->
  (filter (code_matches np c now) (w_codes w) = [] ->
   run ext (verify_code_handler now (JsonOk (mkVerifyReq p c))) w =
   (Done (mkResp 200 (JFailure MSG_INVALID_CODE)),
    set_rate (w_rate w ++ [mkRl np "verify_attempt" now; mkRl np "verify_fail" now]) w, [])) /\
  (forall r, filter (code_matches np c now) (w_codes w) = [r] ->
   run ext (verify_code_handler now (JsonOk (mkVerifyReq p c))) w =
   (Done (mkResp 200 JSuccess),
    set_rate (w_rate w ++ [mkRl np "verify_attempt" now]) (consume_world np c now w), [])).
Proof.
  intros Hn Hc H1 H2. verify_prefix Hn Hc. unfold rl_count in *.
  replace (check_rate_limit (w_rate w) np "verify_attempt" 10 15 now) with true
    by (symmetry; apply Z.ltb_lt; exact H1).
  cbn [negb catch run exec_op bind].
  replace (check_rate_limit (w_rate w) np "verify_fail" 5 15 now) with true
    by (symmetry; apply Z.ltb_lt; exact H2).
  cbn [negb catch run exec_op bind w_codes set_rate fst snd]. split.
  - intros Hf. rewrite Hf. cbn. rewrite <- app_assoc. reflexivity.
  - intros r Hf. rewrite Hf. cbn. reflexivity.
Qed.

Lemma verify_code_outcome_witness :
  normalizePhone "0541234567" = Some "+972541234567" /\ digits_exactly 6 "123456" = true /\
  rl_count (w_rate (code_world [])) "+972541234567" "verify_attempt" 15 0 < 10 /\
  rl_count (w_rate (code_world [])) "+972541234567" "verify_fail" 15 0 < 5 /\
  filter (code_matches "+972541234567" "123456" 0) (w_codes (code_world [])) =
    [mkVrow "+972541234567" "123456" 100 false] /\
  run no_ext (verify_code_handler 0 (JsonOk (mkVerifyReq "0541234567" "123456"))) (code_world []) =
  (Done (mkResp 200 JSuccess),
   set_rate [mkRl "+972541234567" "verify_attempt" 0]
     (consume_world "+972541234567" "123456" 0 (code_world [])), []).
Proof.
  split; [reflexivity|]. split; [reflexivity|].
  split; [apply Z.ltb_lt; vm_compute; reflexivity|].
  split; [apply Z.ltb_lt; vm_compute; reflexivity|].
  split; [reflexivity|].
  apply (proj2 (verify_code_outcome no_ext 0 (code_world []) "0541234567" "123456" _ eq_refl eq_refl
                  ltac:(apply Z.ltb_lt; vm_compute; reflexivity)
                  ltac:(apply Z.ltb_lt; vm_compute; reflexivity))
               (mkVrow "+972541234567" "123456" 100 false)).
  reflexivity.
Defined.

(* ----------------------------------------------------------------- *)
(** *** create-booking *)

Lemma filter_nil_existsb {X} (f : X -> bool) (l : list X) : filter f l = [] -> existsb f l = false.
Proof.
  induction l as [|x l IH]; cbn; [reflexivity|].
  destruct (f x); [discriminate|]. exact IH.
Qed.

Lemma consume_world_spent (np code : string) (now : Z) (w : world) :
  filter (code_matches np code now) (w_codes (consume_world np code now w)) = [].
Proof.
  unfold consume_world. cbn [w_codes set_codes].
  induction (w_codes w) as [|x l IH]; cbn; [reflexivity|].
  destruct (code_matches np code now x) eqn:E; cbn.
  - unfold code_matches at 1. cbn. rewrite !andb_false_r. cbn. exact IH.
  - rewrite E. exact IH.
Qed.

(** Runs create-booking on a request that passes the field, phone and date
    checks, up to the consumption of the code. *)
Ltac create_prefix Hf Hn Hd :=
  unfold booking_req_fields_ok in Hf;
  let phone := fresh "phone" in let code := fresh "code" in let name := fresh "name" in
  let date := fresh "date" in let time := fresh "time" in
  match goal with req : booking_req |- _ => destruct req as [phone code name date time] end;
  cbn [br_phone br_code br_customer_name br_booking_date br_booking_time] in *;
  repeat match type of Hf with
         | _ && _ = true => let H' := fresh "Hf" in apply andb_prop in Hf as [Hf H']
         end;
  repeat match goal with H : negb _ = true |- _ => apply negb_true_iff in H end;
  unfold create_booking_handler, create_booking_body;
  cbn [from_json bind br_phone br_code br_customer_name br_booking_date br_booking_time];
  unfold falsy in *;
  repeat match goal with H : String.eqb _ "" = false |- _ => rewrite H; clear H end;
  repeat match goal with H : digits_exactly _ _ = true |- _ => rewrite H end;
  rewrite Hn, Hd; cbn [orb negb catch run exec_op].

(** The code is consumed before the slot is checked: when the slot already
    holds an active booking, create-booking answers "slot taken" and the
    code stays spent, so it cannot be used again for another slot. *)
Theorem create_booking_taken_burns_code (ext : op -> answer) (today now : Z) (req : booking_req)
    (np : string) (w : world) (r : vrow) (b : booking) :
  booking_req_fields_ok req = true ->
  normalizePhone (br_phone req) = Some np ->
  isValidBookingDate today (br_booking_date req) = true ->
  filter (code_matches np (br_code req) now) (w_codes w) = [r] ->
  filter (fun x => active x && same_slot (br_booking_date req) (br_booking_time req) x) (w_bookings w) = [b] ->
  run ext (create_booking_handler today now (JsonOk req)) w =
  (Done SLOT_UNAVAILABLE, consume_world np (br_code req) now w, []) /\
  filter (code_matches np (br_code req) now) (w_codes (consume_world np (br_code req) now w)) = [].
Proof.
  intros Hf Hn Hd Hc Hb. split; [|apply consume_world_spent].
  create_prefix Hf Hn Hd.
  rewrite Hc. cbn [catch run exec_op w_bookings set_codes]. rewrite Hb. reflexivity.
Qed.


(** With an unspent code, a free slot and a closed-slot lookup that finds
    nothing, create-booking consumes the code, inserts one confirmed booking with the trimmed name, the
    normalized phone and the next id, and answers with that row. *)
Theorem create_booking_success (ext : op -> answer) (today now : Z) (req : booking_req)
    (np : string) (w : world) (r : vrow) :
  booking_req_fields_ok req = true ->
  normalizePhone (br_phone req) = Some np ->
  isValidBookingDate today (br_booking_date req) = true ->
  filter (code_matches np (br_code req) now) (w_codes w) = [r] ->
  filter (fun x => active x && same_slot (br_booking_date req) (br_booking_time req) x) (w_bookings w) = [] ->
  found (fst (exec_op ext (SelectClosedSlot (br_booking_date req) (br_booking_time req)) w)) = false ->
  let row := mkBooking (w_next_id w) (js_trim (br_customer_name req)) np
                       (br_booking_date req) (br_booking_time req) "confirmed" in
  run ext (create_booking_handler today now (JsonOk req)) w =
  (Done (mkResp 200 (JSuccessBooking row)),
   mkWorld (w_codes (consume_world np (br_code req) now w)) (w_bookings w ++ [row])
           (w_closed w) (w_rate w) (w_next_id w + 1), []).
Proof.
  intros Hf Hn Hd Hc Hb Hcl row.
  create_prefix Hf Hn Hd.
  rewrite Hc. cbn [catch run exec_op w_bookings w_closed set_codes]. rewrite Hb.
  cbn [maybe_single found catch run].
  cbn [exec_op] in Hcl |- *.
  destruct (or_value_plain time); cbn [fst w_closed set_codes] in Hcl |- *; rewrite Hcl;
    cbn [catch run exec_op w_bookings w_closed w_next_id set_codes];
    unfold slot_conflict; cbn [active b_status b_booking_date b_booking_time];
    rewrite (filter_nil_existsb _ _ Hb); reflexivity.
Qed.


(* ----------------------------------------------------------------- *)
(** *** Administrator gate *)

Lemma admin_gate_only_admin (ext : op -> answer) (hd : string -> response) (auth : option string)
    (k : prog response) (w w' : world) (r : response) (logs : list string) :
  run ext (catch hd (admin_gate auth k)) w = (Done r, w', logs) ->
  (w' <> w \/ r_status r = 200) ->
  exists h uid, auth = Some h /\ ext (GetUser (replace_first "Bearer " "" h)) = AUser (Some uid) /\
                ext (HasRole uid "admin") = ABool true.
Proof.
  unfold admin_gate. destruct auth as [h|].
  2: { cbn. intros H. inversion H; subst. intros [C|C]; [congruence|discriminate]. }
  cbn [catch run exec_op].
  destruct (ext (GetUser (replace_first "Bearer " "" h))) as [| | | | | |[uid|]| |] eqn:Eu;
    try (cbn; intros H; inversion H; subst; intros [C|C]; [congruence|discriminate]).
  cbn [catch run exec_op].
  destruct (ext (HasRole uid "admin")) as [| |[]| | | | | |] eqn:Er;
    try (cbn; intros H; inversion H; subst; intros [C|C]; [congruence|discriminate]).
  intros _ _. exists h, uid. auto.
Qed.

(** Both admin-create-booking versions change the store or answer 200 only
    when an Authorization header is present, its token (with the ["Bearer "]
    prefix removed) resolves to a user, and that user has the [admin] role. *)
Theorem admin_handlers_require_admin (ext : op -> answer) (today : Z) (tc : bool)
    (auth : option string) (j : json admin_req) (w w' : world) (r : response) (logs : list string) :
  (run ext (admin_create_booking_handler today auth j) w = (Done r, w', logs) \/
   run ext (admin_create_booking_v1_handler tc auth j) w = (Done r, w', logs)) ->
  (w' <> w \/ r_status r = 200) ->
  exists h uid, auth = Some h /\ ext (GetUser (replace_first "Bearer " "" h)) = AUser (Some uid) /\
                ext (HasRole uid "admin") = ABool true.
Proof.
  intros [H|H]; eapply admin_gate_only_admin; exact H.
Qed.


(* ----------------------------------------------------------------- *)
(** *** sms-webhook *)

(** A message whose trimmed body is not ["0"] changes nothing: the webhook
    answers "no message" when [From] or [Body] is empty and the help text
    otherwise. *)
Theorem webhook_ignores_other_messages (ext : op -> answer) (now : Z) (body_ from : string) (w : world) :
  js_trim body_ <> "0" ->
  run ext (sms_webhook_handler now (JsonOk (body_, from))) w =
  (Done (twiml (if falsy from || falsy body_ then MSG_NO_MESSAGE else MSG_HELP)), w, []).
Proof.
  intros Ht. unfold sms_webhook_handler, sms_webhook_body. cbn [from_json bind].
  destruct (falsy from || falsy body_); [reflexivity|].
  destruct (String.eqb_spec (js_trim body_) "0"); [contradiction|reflexivity].
Qed.


(* ----------------------------------------------------------------- *)
(** *** Replies of the current handlers *)

Lemma sanitized_fixed (st : Z) (m : string) :
  fixed_reply (mkResp st (JFailure (sanitizeError m))) = true.
Proof.
  unfold fixed_reply. cbn [r_body]. apply existsb_exists.
  exists (sanitizeError m). split; [apply in_or_app; right; apply sanitizeError_range | apply String.eqb_refl].
Qed.

Lemma all_paths_catch {A} (P : A -> Prop) (Q : string -> Prop) (h : string -> A) (p : prog A) :
  all_paths P (fun m => P (h m)) p -> all_paths P Q (catch h p).
Proof. induction p; cbn; auto. Qed.

Lemma all_paths_bind {A B} (P : B -> Prop) (Q : string -> Prop) (p : prog A) (f : A -> prog B) :
  all_paths (fun a => all_paths P Q (f a)) Q p -> all_paths P Q (bind p f).
Proof. induction p; cbn; auto. Qed.

Lemma all_paths_checkRateLimit (R : bool -> Prop) (Q : string -> Prop) (i a : string) (n : Z) :
  R true -> R false -> all_paths R Q (checkRateLimit i a n).
Proof.
  intros Ht Hf. unfold checkRateLimit.
  destruct (lookup_config a RATE_LIMITS) as [[mx win]|]; cbn; [|exact Ht].
  intros x. destruct x as [| |[]| | | | | |]; cbn; assumption.
Qed.

Lemma all_paths_recordRateLimit (R : unit -> Prop) (Q : string -> Prop) (i a : string) (n : Z) :
  R tt -> all_paths R Q (recordRateLimit i a n).
Proof. intros H. unfold recordRateLimit. cbn. intros x. destruct x; cbn; exact H. Qed.

(** Walks every path of a handler and checks each reply. *)
Ltac reply_paths :=
  repeat match goal with
         | |- _ /\ _ => split
         | |- forall _, _ => intro
         | |- True => exact I
         | |- fixed_reply (mkResp _ (JFailure (sanitizeError _))) = true => apply sanitized_fixed
         | |- fixed_reply _ = true => reflexivity
         | |- all_paths _ _ (catch _ _) => apply all_paths_catch
         | |- all_paths _ _ (bind (checkRateLimit _ _ _) _) =>
             apply all_paths_bind; apply all_paths_checkRateLimit
         | |- all_paths _ _ (bind (recordRateLimit _ _ _) _) =>
             apply all_paths_bind; apply all_paths_recordRateLimit
         | |- all_paths _ _ (bind _ _) => progress cbn [bind]
         | |- context [if ?c then _ else _] => destruct c
         | |- context [match ?a with _ => _ end] => destruct a
         | |- _ => progress cbn [all_paths from_json admin_gate]
         end.

Lemma verify_fixed_replies (now : Z) (jv : json verify_req) :
  all_paths (fun r => fixed_reply r = true) (fun _ => False) (verify_code_handler now jv).
Proof.
  unfold verify_code_handler, verify_code_body.
  destruct jv; reply_paths.
Qed.

Lemma create_fixed_replies (today now : Z) (jb : json booking_req) :
  all_paths (fun r => fixed_reply r = true) (fun _ => False) (create_booking_handler today now jb).
Proof.
  unfold create_booking_handler, create_booking_body.
  destruct jb; reply_paths.
Qed.

Lemma admin_create_fixed_replies (today : Z) (auth : option string) (jb : json admin_req) :
  all_paths (fun r => fixed_reply r = true) (fun _ => False) (admin_create_booking_handler today auth jb).
Proof.
  unfold admin_create_booking_handler, admin_create_booking_body, admin_gate.
  destruct auth, jb; reply_paths.
Qed.

(** Whatever the store and the external services answer, the current
    verify-code, create-booking and admin-create-booking handlers never
    throw, and every reply is a success or one of a fixed set of texts: the
    handlers' own messages or a sanitized error text. No database or
    exception text reaches the client. *)
Theorem current_handlers_fixed_replies (today now : Z) (auth : option string)
    (jv : json verify_req) (jb : json booking_req) (ja : json admin_req) :
  all_paths (fun r => fixed_reply r = true) (fun _ => False) (verify_code_handler now jv) /\
  all_paths (fun r => fixed_reply r = true) (fun _ => False) (create_booking_handler today now jb) /\
  all_paths (fun r => fixed_reply r = true) (fun _ => False) (admin_create_booking_handler today auth ja).
Proof.
  split; [apply verify_fixed_replies|]. split; [apply create_fixed_replies|apply admin_create_fixed_replies].
Qed.

End Handlers.

(** ** Instances of the properties *)

Lemma booking_date_window_rollover_witness :
  isValidBookingDate legacy_nan sample_today (iso_date 2026 12 18) = true /\
  create_booking_handler legacy_nan sample_today 0
    (JsonOk (mkBookingReq "0541234567" "482913" "Dana" (iso_date 2026 10 18) "10:00"))
  = Ret (mkResp 200 (JFailure MSG_INVALID_DATE)).
Proof.
  split.
  - apply (proj2 (proj1 (booking_date_window_rollover legacy_nan sample_today) 2026 12 18
                   ltac:(lia) ltac:(lia) ltac:(vm_compute; split; discriminate))).
    vm_compute. split; discriminate.
  - apply (proj1 (proj2 (booking_date_window_rollover legacy_nan sample_today)) 0 _ "+972541234567"
             2026 10 18).
    + vm_compute; reflexivity.
    + vm_compute; reflexivity.
    + reflexivity.
    + lia.
    + lia.
    + vm_compute; split; discriminate.
    + left; vm_compute; reflexivity.
Defined.

Lemma issue_supersedes_sequential_witness :
  exec_op twilio_ok (ConsumeCode "0541234567" "111111" 1000)
    (issue_code twilio_ok "0541234567" "222222" 500
       (issue_code twilio_ok "0541234567" "111111" 0 empty_world)) =
  (ARow None, issue_code twilio_ok "0541234567" "222222" 500
                (issue_code twilio_ok "0541234567" "111111" 0 empty_world)).
Proof.
  apply (proj2 (proj2 (issue_supersedes_sequential legacy_nan))). discriminate.
Defined.

Lemma webhook_cancels_first_eligible_witness :
  falsy "+972541234567" = false /\
  run no_ext (sms_webhook_handler legacy_nan webhook_now (cancel_form "+972541234567")) webhook_world =
    (Done (twiml (cancelled_text booking_14)), webhook_world_after, []) /\
  run no_ext (sms_webhook_handler legacy_nan webhook_now (cancel_form "+972541234567")) webhook_world_after =
    (Done (twiml MSG_NOT_CANCELLABLE), webhook_world_after, []).
Proof.
  split; [reflexivity|].
  destruct (webhook_cancels_first_eligible legacy_nan no_ext webhook_now "+972541234567" webhook_world eq_refl)
    as [H1 _].
  destruct (webhook_cancels_first_eligible legacy_nan no_ext webhook_now "+972541234567" webhook_world_after eq_refl)
    as [_ H2].
  split.
  - exact (proj1 (H1 [booking_10] booking_14 [] ltac:(vm_compute; reflexivity)
                     ltac:(vm_compute; reflexivity) ltac:(vm_compute; reflexivity))).
  - apply H2. vm_compute. reflexivity.
Defined.

Lemma webhook_misses_normalized_bookings_witness :
  falsy "+972541234567" = false /\
  run no_ext (sms_webhook_handler legacy_nan 0 (cancel_form "+972541234567")) normalized_booking_world =
  (Done (twiml MSG_NOT_CANCELLABLE), normalized_booking_world, []).
Proof.
  split; [reflexivity|].
  apply (webhook_misses_normalized_bookings legacy_nan); [reflexivity|].
  intros b [<-|[]]. exists "0541234567". reflexivity.
Defined.

Lemma send_sms_never_issues_consumable_witness :
  normalizePhone "0541234567" = Some "+972541234567" /\
  filter (code_matches "+972541234567" "123456" 0)
    (w_codes (snd (fst (run no_ext (send_sms_handler legacy_nan true "123456" 0
       (JsonOk (mkSmsReq "0541234567" "verification" "" "" "" ""))) (mkWorld [] [] [] [] 1))))) =
  filter (code_matches "+972541234567" "123456" 0) (w_codes (mkWorld [] [] [] [] 1)).
Proof.
  split; [reflexivity|].
  apply (send_sms_never_issues_consumable legacy_nan _ _ _ _ _ _ "0541234567"). reflexivity.
Defined.

Lemma send_sms_storage_effect_witness :
  is_local_mobile "+972541234567" = false /\
  run no_ext (send_sms_handler legacy_nan true "123456" 0
    (JsonOk (mkSmsReq "+972541234567" "verification" "" "" "" ""))) (mkWorld [] [] [] [] 1) =
  (Done (mkResp 500 (JError "Invalid phone number format")), mkWorld [] [] [] [] 1, []).
Proof.
  split; [reflexivity|].
  apply (proj2 (send_sms_storage_effect legacy_nan no_ext true "123456" 0
    (mkSmsReq "+972541234567" "verification" "" "" "" "") (mkWorld [] [] [] [] 1)));
  reflexivity.
Defined.

Lemma create_booking_taken_burns_code_witness :
  booking_req_fields_ok sample_booking_req = true /\
  normalizePhone "0541234567" = Some "+972541234567" /\
  isValidBookingDate legacy_nan sample_today "2026-10-20" = true /\
  run no_ext (create_booking_handler legacy_nan sample_today 0 (JsonOk sample_booking_req))
    (code_world (w_bookings occupied_world)) =
  (Done SLOT_UNAVAILABLE,
   consume_world "+972541234567" "123456" 0 (code_world (w_bookings occupied_world)), []).
Proof.
  split; [reflexivity|]. split; [reflexivity|]. split; [reflexivity|].
  apply (proj1 (create_booking_taken_burns_code legacy_nan no_ext sample_today 0 sample_booking_req "+972541234567"
    (code_world (w_bookings occupied_world)) (mkVrow "+972541234567" "123456" 100 false)
    (mkBooking 1 "Noa" "+972501111111" "2026-10-20" "10:00" "confirmed")
    eq_refl eq_refl eq_refl eq_refl eq_refl)).
Defined.

Lemma create_booking_success_witness :
  booking_req_fields_ok sample_booking_req = true /\
  run no_ext (create_booking_handler legacy_nan sample_today 0 (JsonOk sample_booking_req)) (code_world []) =
  (Done (mkResp 200 (JSuccessBooking (mkBooking 2 "Dana" "+972541234567" "2026-10-20" "10:00" "confirmed"))),
   mkWorld [mkVrow "+972541234567" "123456" 100 true]
           [mkBooking 2 "Dana" "+972541234567" "2026-10-20" "10:00" "confirmed"] [] [] 3, []).
Proof.
  split; [reflexivity|].
  apply (create_booking_success legacy_nan no_ext sample_today 0 sample_booking_req "+972541234567"
    (code_world []) (mkVrow "+972541234567" "123456" 100 false)); reflexivity.
Defined.

Lemma admin_handlers_require_admin_witness :
  run admin_ext (admin_create_booking_handler legacy_nan sample_today (Some "Bearer t") (JsonOk admin_sample_req))
    (mkWorld [] [] [] [] 1) =
  (Done (mkResp 200 (JSuccessBooking (mkBooking 1 "Dana" "+972541234567" "2026-10-20" "10:00" "confirmed"))),
   mkWorld [] [mkBooking 1 "Dana" "+972541234567" "2026-10-20" "10:00" "confirmed"] [] [] 2, []) /\
  exists h uid, Some "Bearer t" = Some h /\ admin_ext (GetUser (replace_first "Bearer " "" h)) = AUser (Some uid) /\
                admin_ext (HasRole uid "admin") = ABool true.
Proof.
  split; [vm_compute; reflexivity|].
  apply (admin_handlers_require_admin legacy_nan admin_ext sample_today false (Some "Bearer t") (JsonOk admin_sample_req)
    (mkWorld [] [] [] [] 1)
    (mkWorld [] [mkBooking 1 "Dana" "+972541234567" "2026-10-20" "10:00" "confirmed"] [] [] 2)
    (mkResp 200 (JSuccessBooking (mkBooking 1 "Dana" "+972541234567" "2026-10-20" "10:00" "confirmed"))) []).
  - left. vm_compute. reflexivity.
  - right. reflexivity.
Defined.

Lemma webhook_ignores_other_messages_witness :
  js_trim " cancel " <> "0" /\
  run no_ext (sms_webhook_handler legacy_nan 0 (JsonOk (" cancel ", "+972541234567"))) occupied_world =
  (Done (twiml MSG_HELP), occupied_world, []).
Proof.
  split; [vm_compute; discriminate|].
  apply (webhook_ignores_other_messages legacy_nan no_ext 0 " cancel " "+972541234567" occupied_world).
  vm_compute. discriminate.
Defined.
